(** * svelte-svg-viewer: the viewport engine of [createViewer]

    A shallow embedding of [src/lib/internal/SVGViewer.ts] (the pan/zoom
    engine behind the [SVGViewer] component) together with the properties
    stated for it.

    Conventions of the embedding

    - A JavaScript [number] is an exact rational ([Q]).  Comparisons are the
      decidable comparisons of [Q], [Math.min]/[Math.max]/[Math.abs] are
      [Qmin]/[Qmax]/[Qabs].  Rounding, [NaN] and the infinities are outside
      the model; a statement that involves a quotient carries the hypothesis
      that the divisor is not zero, because [Q] division by zero is [0] while
      the JavaScript one is not.
    - The engine itself computes in IEEE binary64.  What is stated of it is
      therefore an order fact, the choice made by a comparison or by
      [Math.min]/[Math.max], or the equality of a result with the expression
      the code evaluates: facts that rounding does not disturb.  Identities
      of exact arithmetic that rounding breaks are not stated; [Binary64]
      replays the computations concerned over primitive floats.
    - The closure of [createViewer] is the record [Viewer]: the stores
      ([position], [scale], ...) and the [let]-bound variables ([offset],
      [lastCenter], ...) are its fields; every function of the closure is a
      function from [Viewer] to [Viewer].
    - An element reference is [option SVGElement]; the element answers
      [getBoundingClientRect] with the rectangle it currently has on screen.
    - A handler that indexes [event.touches] past its length would raise a
      [TypeError]; such handlers return [option Viewer], [None] standing for
      the exception.
    - [Math.sqrt] is a parameter of the engine: it is only used for the
      distance of two touches, whose value the engine passes on.
    - The repository holds a second copy of the engine
      ([src/unnamed/part_000]); it differs in [onPinchMove], modelled as
      [onPinchMove_part_000].
    - [event.preventDefault()] and [console.log] do not touch the closure and
      are left out. *)

From Stdlib Require Import QArith Qminmax Qabs Lqa Bool List String.
From Stdlib Require PrimFloat.
Import ListNotations.

Local Open Scope Q_scope.

(** ** JavaScript numbers *)

Definition Qltb (a b : Q) : bool := negb (Qle_bool b a).

Definition Qgtb (a b : Q) : bool := Qltb b a.

Definition Qgeb (a b : Q) : bool := Qle_bool b a.

Infix "<?" := Qltb (at level 70, no associativity) : Q_scope.
Infix "<=?" := Qle_bool (at level 70, no associativity) : Q_scope.
Infix ">?" := Qgtb (at level 70, no associativity) : Q_scope.
Infix ">=?" := Qgeb (at level 70, no associativity) : Q_scope.
Infix "=?" := Qeq_bool (at level 70, no associativity) : Q_scope.

(** [!n] on a number is true for [0] (and for [undefined], modelled by
    [None] where a variable can be unset). *)
Definition truthy (n : Q) : bool := negb (n =? 0).

(** [a || b] on numbers. *)
Definition js_or (a b : Q) : Q := if truthy a then a else b.

Module Math.

Definition min (a b : Q) : Q := Qmin a b.

Definition max (a b : Q) : Q := Qmax a b.

Definition abs (a : Q) : Q := Qabs a.

(** [Math.pow(a, n)] for an integer exponent. *)
Definition pow (a : Q) (n : Z) : Q := Qpower a n.

End Math.

(** [Array.prototype.reduce] without an initial value: the first element
    seeds the accumulator; the empty array raises. *)
Definition Array_reduce {A : Type} (f : A -> A -> A) (l : list A) : option A :=
  match l with
  | [] => None
  | a :: l' => Some (fold_left f l' a)
  end.

(** ** Data *)

Inductive PinchBehavior : Type := zoomDrag | zoomOnly.

Definition Key : Type := string.

(** [Position = { x: number; y: number }]; the fields are [px] and [py]
    here so that [x] and [y] stay free for arguments. *)
Record Position : Type := mkPosition { px : Q; py : Q }.

Record DOMRect : Type := mkRect {
  rect_x : Q;
  rect_y : Q;
  width : Q;
  height : Q
}.

Record SVGElement : Type := mkElement { getBoundingClientRect : DOMRect }.

Record Touch : Type := mkTouch { touch_clientX : Q; touch_clientY : Q }.

Record MouseEvent : Type := mkMouseEvent { clientX : Q; clientY : Q }.

Record WheelEvent : Type := mkWheelEvent {
  wheel_mouse : MouseEvent;
  deltaX : Q;
  deltaY : Q
}.

Record TouchEvent : Type := mkTouchEvent { touches : list Touch }.

Record KeyboardEvent : Type := mkKeyboardEvent { key : Key; repeat : bool }.

(** The resolved properties ([withDefaults]): the uncontrolled variants. *)
Record CreateSVGViewerProps : Type := mkProps {
  defaultPosition : Position;
  maxScale : Q;
  minScale : Q;
  defaultIgnoreScale : bool;
  defaultScale : Q;
  scaleMouseSensitivity : Q;
  scaleTouchpadSensitivity : Q;
  defaultLockToBoundaries : bool;
  defaultActionKey : option Key;
  defaultPinchBehavior : PinchBehavior
}.

Definition defaultProps : CreateSVGViewerProps := {|
  defaultPosition := mkPosition 0 0;
  maxScale := 14 # 10;
  minScale := 6 # 10;
  defaultIgnoreScale := false;
  defaultScale := 1;
  scaleMouseSensitivity := 11 # 10;
  scaleTouchpadSensitivity := 106 # 100;
  defaultLockToBoundaries := false;
  defaultActionKey := None;
  defaultPinchBehavior := zoomOnly
|}.

(** The closure state of [createViewer]. *)
Record Viewer : Type := mkViewer {
  position : Position;
  scale : Q;
  ignoreScale : bool;
  lockToBoundaries : bool;
  actionKey : option Key;
  pinchBehavior : PinchBehavior;
  viewerRef : option SVGElement;
  containerRef : option SVGElement;
  offset : Position;
  lastCenter : option Position;
  lastDistance : option Q;
  hasActionKeyPressed : bool;
  hasPointerDown : bool;
  isMoving : bool
}.

Definition set_position (p : Position) (v : Viewer) : Viewer :=
  mkViewer p (scale v) (ignoreScale v) (lockToBoundaries v) (actionKey v)
    (pinchBehavior v) (viewerRef v) (containerRef v) (offset v) (lastCenter v)
    (lastDistance v) (hasActionKeyPressed v) (hasPointerDown v) (isMoving v).

Definition set_scale (s : Q) (v : Viewer) : Viewer :=
  mkViewer (position v) s (ignoreScale v) (lockToBoundaries v) (actionKey v)
    (pinchBehavior v) (viewerRef v) (containerRef v) (offset v) (lastCenter v)
    (lastDistance v) (hasActionKeyPressed v) (hasPointerDown v) (isMoving v).

Definition set_lockToBoundaries (b : bool) (v : Viewer) : Viewer :=
  mkViewer (position v) (scale v) (ignoreScale v) b (actionKey v)
    (pinchBehavior v) (viewerRef v) (containerRef v) (offset v) (lastCenter v)
    (lastDistance v) (hasActionKeyPressed v) (hasPointerDown v) (isMoving v).

Definition set_viewerRef (r : option SVGElement) (v : Viewer) : Viewer :=
  mkViewer (position v) (scale v) (ignoreScale v) (lockToBoundaries v)
    (actionKey v) (pinchBehavior v) r (containerRef v) (offset v)
    (lastCenter v) (lastDistance v) (hasActionKeyPressed v) (hasPointerDown v)
    (isMoving v).

Definition set_containerRef (r : option SVGElement) (v : Viewer) : Viewer :=
  mkViewer (position v) (scale v) (ignoreScale v) (lockToBoundaries v)
    (actionKey v) (pinchBehavior v) (viewerRef v) r (offset v)
    (lastCenter v) (lastDistance v) (hasActionKeyPressed v) (hasPointerDown v)
    (isMoving v).

Definition set_offset (o : Position) (v : Viewer) : Viewer :=
  mkViewer (position v) (scale v) (ignoreScale v) (lockToBoundaries v)
    (actionKey v) (pinchBehavior v) (viewerRef v) (containerRef v) o
    (lastCenter v) (lastDistance v) (hasActionKeyPressed v) (hasPointerDown v)
    (isMoving v).

Definition set_lastCenter (c : option Position) (v : Viewer) : Viewer :=
  mkViewer (position v) (scale v) (ignoreScale v) (lockToBoundaries v)
    (actionKey v) (pinchBehavior v) (viewerRef v) (containerRef v) (offset v)
    c (lastDistance v) (hasActionKeyPressed v) (hasPointerDown v) (isMoving v).

Definition set_lastDistance (d : option Q) (v : Viewer) : Viewer :=
  mkViewer (position v) (scale v) (ignoreScale v) (lockToBoundaries v)
    (actionKey v) (pinchBehavior v) (viewerRef v) (containerRef v) (offset v)
    (lastCenter v) d (hasActionKeyPressed v) (hasPointerDown v) (isMoving v).

Definition set_hasActionKeyPressed (b : bool) (v : Viewer) : Viewer :=
  mkViewer (position v) (scale v) (ignoreScale v) (lockToBoundaries v)
    (actionKey v) (pinchBehavior v) (viewerRef v) (containerRef v) (offset v)
    (lastCenter v) (lastDistance v) b (hasPointerDown v) (isMoving v).

Definition set_hasPointerDown (b : bool) (v : Viewer) : Viewer :=
  mkViewer (position v) (scale v) (ignoreScale v) (lockToBoundaries v)
    (actionKey v) (pinchBehavior v) (viewerRef v) (containerRef v) (offset v)
    (lastCenter v) (lastDistance v) (hasActionKeyPressed v) b (isMoving v).

Definition set_isMoving (b : bool) (v : Viewer) : Viewer :=
  mkViewer (position v) (scale v) (ignoreScale v) (lockToBoundaries v)
    (actionKey v) (pinchBehavior v) (viewerRef v) (containerRef v) (offset v)
    (lastCenter v) (lastDistance v) (hasActionKeyPressed v) (hasPointerDown v)
    b.

(** ** Overridable stores *)

(** [ChangeFn<T> = ({ curr, next }) => T]. *)
Definition ChangeFn (T : Type) : Type := T -> T -> T.

(** Modelled from the spec: [overridable] lives in [./index.js], which is not
    among the sources.  A write computes [next = updater(curr)] and stores
    [onChange({ curr, next })] when an interceptor is configured, [next]
    otherwise; [set(v)] is [update(() => v)]. *)
Definition overridable_update {T : Type} (onChange : option (ChangeFn T))
    (updater : T -> T) (curr : T) : T :=
  let next := updater curr in
  match onChange with
  | Some f => f curr next
  | None => next
  end.

Definition overridable_set {T : Type} (onChange : option (ChangeFn T))
    (v : T) (curr : T) : T :=
  overridable_update onChange (fun _ => v) curr.


(** ** The engine *)

Section CreateViewer.

(** [withDefaults]: the properties after the defaults are filled in. *)
Variable withDefaults : CreateSVGViewerProps.

(** [Math.sqrt]; the engine only passes its result on, so it stays
    abstract. *)
Variable Math_sqrt : Q -> Q.

(** *** Change interceptors *)

Definition onLockChange : ChangeFn bool := fun curr next => next.

Definition onPositionChange : ChangeFn Position := fun curr next => next.

(** Reads [ignoreScaleStore] of the closure [v]. *)
Definition onScaleChange (v : Viewer) : ChangeFn Q := fun curr next =>
  if ignoreScale v then next
  else if next >? maxScale withDefaults then curr
  else if next <? minScale withDefaults then curr
  else next.

(** *** Store writes *)

Definition position_set (p : Position) (v : Viewer) : Viewer :=
  set_position (overridable_set (Some onPositionChange) p (position v)) v.

Definition position_update (f : Position -> Position) (v : Viewer) : Viewer :=
  set_position (overridable_update (Some onPositionChange) f (position v)) v.

Definition scale_set (s : Q) (v : Viewer) : Viewer :=
  set_scale (overridable_set (Some (onScaleChange v)) s (scale v)) v.

(** [if (!$containerRef || !$viewerRef) return;]: both elements, container
    first, when both are attached. *)
Definition refs (v : Viewer) : option (SVGElement * SVGElement) :=
  match containerRef v, viewerRef v with
  | Some containerEl, Some viewerEl => Some (containerEl, viewerEl)
  | _, _ => None
  end.

(** The body of [effect([lockToBoundaries], ...)], the callback the store
    runs when [lockToBoundaries] changes. *)
Definition lockEffect (v : Viewer) : Viewer :=
  if negb (lockToBoundaries v) then v
  else
    match refs v with
    | None => v
    | Some (containerEl, viewerEl) =>
        let containerRect := getBoundingClientRect containerEl in
        let viewerRect := getBoundingClientRect viewerEl in
        position_update (fun p =>
          let newX :=
            Math.min 0 (Math.max (px p)
                          (- (width containerRect - width viewerRect))) in
          let newY :=
            Math.min 0 (Math.max (py p)
                          (- (height containerRect - height viewerRect))) in
          mkPosition newX newY) v
    end.

(** *** Geometry *)

Definition getMousePosition (event : MouseEvent) (element : SVGElement)
    : Position :=
  let rect := getBoundingClientRect element in
  mkPosition (clientX event - rect_x rect) (clientY event - rect_y rect).

Definition getTouchPosition (event : TouchEvent) (element : SVGElement)
    : option Position :=
  let rect := getBoundingClientRect element in
  match nth_error (touches event) 0 with
  | Some t =>
      Some (mkPosition (touch_clientX t - rect_x rect)
                       (touch_clientY t - rect_y rect))
  | None => None
  end.

Definition getPinchCenter (touch1Pos touch2Pos : Position) : Position :=
  mkPosition ((px touch1Pos + px touch2Pos) / 2)
             ((py touch1Pos + py touch2Pos) / 2).

Definition getPinchDistance (touch1Pos touch2Pos : Position) : Q :=
  Math_sqrt (Math.pow (px touch2Pos - px touch1Pos) 2 +
             Math.pow (py touch2Pos - py touch1Pos) 2).

Definition isPinchGesture (event : TouchEvent) : bool :=
  Nat.ltb 1 (List.length (touches event)).

(** *** Methods *)

Definition panTo (x y : Q) (v : Viewer) : Viewer :=
  match refs v with
  | None => v
  | Some (containerEl, viewerEl) =>
      let containerRect := getBoundingClientRect containerEl in
      let viewerRect := getBoundingClientRect viewerEl in
      let '(x, y) :=
        if lockToBoundaries v then
          (Math.min 0
             (Math.max x (- (width containerRect - width viewerRect))),
           Math.min 0
             (Math.max y (- (height containerRect - height viewerRect))))
        else (x, y) in
      position_set (mkPosition x y) v
  end.

Definition pan (x y : Q) (v : Viewer) : Viewer :=
  match refs v with
  | None => v
  | Some (containerEl, viewerEl) =>
      let containerRect := getBoundingClientRect containerEl in
      let viewerRect := getBoundingClientRect viewerEl in
      let newPosition :=
        mkPosition (px (position v) + x) (py (position v) + y) in
      let newPosition :=
        if lockToBoundaries v then
          mkPosition
            (Math.min 0 (Math.max (px newPosition)
                           (- (width containerRect - width viewerRect))))
            (Math.min 0 (Math.max (py newPosition)
                           (- (height containerRect - height viewerRect))))
        else newPosition in
      position_set newPosition v
  end.

(** [[a, b, ...].reduce(f)] for the array literal [hd :: tl]. *)
Definition Array_reduce_lit {A : Type} (f : A -> A -> A) (hd : A)
    (tl : list A) : A :=
  match Array_reduce f (hd :: tl) with
  | Some r => r
  | None => hd
  end.

Definition fitToViewer (forceScale : bool) (v : Viewer) : Viewer :=
  match refs v with
  | None => v
  | Some (containerEl, viewerEl) =>
      let scale0 := scale v in
      let viewerHeight := height (getBoundingClientRect viewerEl) in
      let viewerWidth := width (getBoundingClientRect viewerEl) in
      let containerHeight := height (getBoundingClientRect containerEl) in
      let containerWidth := width (getBoundingClientRect containerEl) in
      let initialContainerHeight := containerHeight / scale0 in
      let initialContainerWidth := containerWidth / scale0 in
      let scaleY := viewerHeight / initialContainerHeight in
      let scaleX := viewerWidth / initialContainerWidth in
      let newScale :=
        if lockToBoundaries v then
          Array_reduce_lit
            (fun prev curr =>
               if Math.abs (curr - 1) <? Math.abs (prev - 1)
               then curr else prev)
            scaleX [scaleY]
        else (scaleY + scaleX) / 2 in
      let newScale :=
        if negb forceScale then
          Math.max (minScale withDefaults)
                   (Math.min (maxScale withDefaults) newScale)
        else newScale in
      position_set (mkPosition 0 0) (scale_set newScale v)
  end.

Definition zoom (x y newScale : Q) (v : Viewer) : Viewer :=
  match refs v with
  | None => v
  | Some (containerEl, viewerEl) =>
      let oldScale := scale v in
      let containerRect := getBoundingClientRect containerEl in
      let viewerRect := getBoundingClientRect viewerEl in
      let newScale :=
        if negb (ignoreScale v) then
          let newScale :=
            if newScale >? maxScale withDefaults
            then maxScale withDefaults else newScale in
          if newScale <? minScale withDefaults
          then minScale withDefaults else newScale
        else newScale in
      let scaleDiff := newScale / oldScale in
      let scaledContainerWidth := width containerRect * scaleDiff in
      let scaledContainerHeight := height containerRect * scaleDiff in
      if lockToBoundaries v &&
         ((scaledContainerWidth <? width viewerRect) ||
          (scaledContainerHeight <? height viewerRect))
      then fitToViewer false v
      else
        scale_set newScale
          (position_update (fun p =>
             let newX := scaleDiff * (px p - x) + x in
             let newY := scaleDiff * (py p - y) + y in
             let '(newX, newY) :=
               if lockToBoundaries v then
                 (Math.min 0 (Math.max newX
                    (- (scaledContainerWidth - width viewerRect))),
                  Math.min 0 (Math.max newY
                    (- (scaledContainerHeight - height viewerRect))))
               else (newX, newY) in
             mkPosition newX newY) v)
  end.

Definition zoomOnCenter (newScale : Q) (v : Viewer) : Viewer :=
  match refs v with
  | None => v
  | Some (containerEl, viewerEl) =>
      let viewerRect := getBoundingClientRect viewerEl in
      let newScale :=
        if newScale >? maxScale withDefaults
        then maxScale withDefaults else newScale in
      let newScale :=
        if newScale <? minScale withDefaults
        then minScale withDefaults else newScale in
      let centerPosition :=
        mkPosition (width viewerRect / 2) (height viewerRect / 2) in
      zoom (px centerPosition) (py centerPosition) newScale v
  end.

Definition fitSelection (x y selectionWidth selectionHeight : Q)
    (v : Viewer) : Viewer :=
  match refs v with
  | None => v
  | Some (containerEl, viewerEl) =>
      let viewerRect := getBoundingClientRect viewerEl in
      let scaleX := width viewerRect / selectionWidth in
      let scaleY := height viewerRect / selectionHeight in
      let newScale := Math.min scaleX scaleY in
      scale_set newScale
        (position_set (mkPosition (- x * newScale) (- y * newScale)) v)
  end.

Definition center (v : Viewer) : Viewer :=
  match refs v with
  | None => v
  | Some (containerEl, viewerEl) =>
      let containerRect := getBoundingClientRect containerEl in
      let viewerRect := getBoundingClientRect viewerEl in
      position_set
        (mkPosition (- (width containerRect - width viewerRect) / 2)
                    (- (height containerRect - height viewerRect) / 2)) v
  end.

Definition reset (v : Viewer) : Viewer := v.

(** *** Listeners *)

Definition onMouseDown (event : MouseEvent) (v : Viewer) : Viewer :=
  match refs v with
  | None => v
  | Some (containerEl, viewerEl) =>
      if negb (hasActionKeyPressed v) then v
      else
        let newOffset := getMousePosition event viewerEl in
        set_hasPointerDown true
          (set_offset
             (mkPosition (px newOffset - px (position v))
                         (py newOffset - py (position v))) v)
  end.

Definition onMouseMove (event : MouseEvent) (v : Viewer) : Viewer :=
  match refs v with
  | None => v
  | Some (containerEl, viewerEl) =>
      if negb (hasActionKeyPressed v) then v
      else if negb (hasPointerDown v) && negb (isMoving v) then v
      else
        let v1 :=
          if negb (isMoving v)
          then set_hasPointerDown false (set_isMoving true v)
          else v in
        let newPosition := getMousePosition event viewerEl in
        let newX := px newPosition - px (offset v1) in
        let newY := py newPosition - py (offset v1) in
        panTo newX newY v1
  end.

Definition onMouseUp (event : MouseEvent) (v : Viewer) : Viewer :=
  match refs v with
  | None => v
  | Some (containerEl, viewerEl) =>
      set_offset (mkPosition 0 0)
        (set_hasPointerDown false (set_isMoving false v))
  end.

Definition onWheel (event : WheelEvent) (v : Viewer) : Viewer :=
  match refs v with
  | None => v
  | Some (containerEl, viewerEl) =>
      if negb (hasActionKeyPressed v) then v
      else
        let oldScale := scale v in
        let delta := js_or (deltaY event) (deltaX event) in
        let cursorPos := getMousePosition (wheel_mouse event) viewerEl in
        let scaleStep :=
          if Math.abs delta >? 50
          then scaleMouseSensitivity withDefaults
          else scaleTouchpadSensitivity withDefaults in
        let scaleDelta := if delta <? 0 then 1 / scaleStep else scaleStep in
        let newScale := oldScale / scaleDelta in
        zoom (px cursorPos) (py cursorPos) newScale v
  end.

Definition touchPos (t : Touch) : Position :=
  mkPosition (touch_clientX t) (touch_clientY t).

Definition onTouchStart (event : TouchEvent) (v : Viewer) : option Viewer :=
  match refs v with
  | None => Some v
  | Some (containerEl, viewerEl) =>
      if isPinchGesture event then
        let v1 := if isMoving v then set_isMoving false v else v in
        match nth_error (touches event) 0, nth_error (touches event) 1 with
        | Some touch1, Some touch2 =>
            let touch1Pos := touchPos touch1 in
            let touch2Pos := touchPos touch2 in
            let v2 :=
              set_lastDistance
                (Some (getPinchDistance touch1Pos touch2Pos)) v1 in
            match pinchBehavior v with
            | zoomDrag =>
                let newOffset := getPinchCenter touch1Pos touch2Pos in
                Some (set_offset
                        (mkPosition (px newOffset - px (position v))
                                    (py newOffset - py (position v))) v2)
            | zoomOnly => Some v2
            end
        | _, _ => None
        end
      else
        match getTouchPosition event viewerEl with
        | Some newOffset =>
            Some (set_hasPointerDown true
                    (set_offset
                       (mkPosition (px newOffset - px (position v))
                                   (py newOffset - py (position v))) v))
        | None => None
        end
  end.

Definition onPinchMove (event : TouchEvent) (v : Viewer) : option Viewer :=
  match refs v with
  | None => Some v
  | Some (containerEl, viewerEl) =>
      if isMoving v then Some v
      else
        match nth_error (touches event) 0, nth_error (touches event) 1 with
        | Some touch1, Some touch2 =>
            let touch1Pos := touchPos touch1 in
            let touch2Pos := touchPos touch2 in
            let newCenter := getPinchCenter touch1Pos touch2Pos in
            match lastCenter v with
            | None => Some (set_lastCenter (Some newCenter) v)
            | Some lastCenter0 =>
                let distance := getPinchDistance touch1Pos touch2Pos in
                let scale0 := scale v in
                let '(v1, lastDistance0) :=
                  match lastDistance v with
                  | Some d =>
                      if truthy d then (v, d)
                      else (set_lastDistance (Some distance) v, distance)
                  | None => (set_lastDistance (Some distance) v, distance)
                  end in
                let newScale := scale0 * (distance / lastDistance0) in
                if scale0 =? newScale then Some v1
                else
                  let scaleDiff := newScale / scale0 in
                  let containerRect := getBoundingClientRect containerEl in
                  let viewerRect := getBoundingClientRect viewerEl in
                  let initialContainerHeight :=
                    height containerRect * scaleDiff in
                  let initialContainerWidth :=
                    width containerRect * scaleDiff in
                  if (newScale <=? maxScale withDefaults) &&
                     (newScale >=? minScale withDefaults) &&
                     (initialContainerWidth >? width viewerRect) &&
                     (initialContainerHeight >? height viewerRect)
                  then
                    let v2 :=
                      match pinchBehavior v with
                      | zoomDrag =>
                          let newX := px newCenter - px lastCenter0 in
                          let newY := py newCenter - py lastCenter0 in
                          pan (newX * scaleDiff) (newY * scaleDiff)
                            (zoom (px newCenter) (py newCenter) newScale v1)
                      | zoomOnly =>
                          zoom (px newCenter) (py newCenter) newScale v1
                      end in
                    Some (set_lastCenter (Some newCenter)
                            (set_lastDistance (Some distance) v2))
                  else Some v1
            end
        | _, _ => None
        end
  end.

(** [onPinchMove] as the second copy of the engine has it
    ([src/unnamed/part_000]): the range test multiplies by the current scale
    once more, and the [zoomDrag] branch writes scale and position itself. *)
Definition onPinchMove_part_000 (event : TouchEvent) (v : Viewer)
    : option Viewer :=
  match refs v with
  | None => Some v
  | Some (containerEl, viewerEl) =>
      if isMoving v then Some v
      else
        match nth_error (touches event) 0, nth_error (touches event) 1 with
        | Some touch1, Some touch2 =>
            let touch1Pos := touchPos touch1 in
            let touch2Pos := touchPos touch2 in
            let newCenter := getPinchCenter touch1Pos touch2Pos in
            match lastCenter v with
            | None => Some (set_lastCenter (Some newCenter) v)
            | Some lastCenter0 =>
                let distance := getPinchDistance touch1Pos touch2Pos in
                let scale0 := scale v in
                let position0 := position v in
                let '(v1, lastDistance0) :=
                  match lastDistance v with
                  | Some d =>
                      if truthy d then (v, d)
                      else (set_lastDistance (Some distance) v, distance)
                  | None => (set_lastDistance (Some distance) v, distance)
                  end in
                let newScale := scale0 * (distance / lastDistance0) in
                if scale0 =? newScale then Some v1
                else
                  let containerRect := getBoundingClientRect containerEl in
                  let viewerRect := getBoundingClientRect viewerEl in
                  if (scale0 * newScale <=? maxScale withDefaults) &&
                     (scale0 * newScale >=? minScale withDefaults) &&
                     (width containerRect * (newScale / scale0)
                        >? width viewerRect) &&
                     (height containerRect * (newScale / scale0)
                        >? height viewerRect)
                  then
                    let v2 :=
                      match pinchBehavior v with
                      | zoomDrag =>
                          let pointTo :=
                            mkPosition
                              ((px newCenter - px position0) / scale0)
                              ((py newCenter - py position0) / scale0) in
                          position_update (fun p =>
                            let newX :=
                              (px newCenter - px pointTo) * newScale in
                            let newY :=
                              (py newCenter - py pointTo) * newScale in
                            let '(newX, newY) :=
                              if lockToBoundaries v then
                                (Math.min 0 (Math.max newX
                                   (- (width containerRect
                                       * (newScale / scale0)
                                       - width viewerRect))),
                                 Math.min 0 (Math.max newY
                                   (- (height containerRect
                                       * (newScale / scale0)
                                       - height viewerRect))))
                              else (newX, newY) in
                            if (px p =? newX) && (py p =? newY) then p
                            else mkPosition newX newY)
                            (scale_set newScale v1)
                      | zoomOnly =>
                          zoom (px newCenter) (py newCenter) newScale v1
                      end in
                    Some (set_lastCenter (Some newCenter)
                            (set_lastDistance (Some distance) v2))
                  else Some v1
            end
        | _, _ => None
        end
  end.

Definition onTouchMove (event : TouchEvent) (v : Viewer) : option Viewer :=
  match refs v with
  | None => Some v
  | Some (containerEl, viewerEl) =>
      if isPinchGesture event then onPinchMove event v
      else
        let drag (v1 : Viewer) : option Viewer :=
          match getTouchPosition event viewerEl with
          | Some newPosition =>
              let newX := px newPosition - px (offset v1) in
              let newY := py newPosition - py (offset v1) in
              Some (panTo newX newY v1)
          | None => None
          end in
        if negb (isMoving v) then
          if negb (hasPointerDown v) then Some v
          else drag (set_hasPointerDown false (set_isMoving true v))
        else drag v
  end.

Definition onTouchEnd (event : TouchEvent) (v : Viewer) : Viewer :=
  match refs v with
  | None => v
  | Some (containerEl, viewerEl) =>
      let v1 :=
        set_offset (mkPosition 0 0)
          (set_hasPointerDown false (set_isMoving false v)) in
      if isPinchGesture event
      then set_lastCenter None (set_lastDistance (Some 0) v1)
      else v1
  end.

(** [$actionKey === e.key]. *)
Definition isActionKey (v : Viewer) (e : KeyboardEvent) : bool :=
  match actionKey v with
  | Some k => String.eqb k (key e)
  | None => false
  end.

Definition onKeyDown (e : KeyboardEvent) (v : Viewer) : Viewer :=
  if repeat e || hasActionKeyPressed v then v
  else if isActionKey v e then set_hasActionKeyPressed true v
  else v.

Definition onKeyUp (e : KeyboardEvent) (v : Viewer) : Viewer :=
  if negb (hasActionKeyPressed v) then v
  else if isActionKey v e then set_hasActionKeyPressed false v
  else v.

(** The closure as [createViewer] leaves it: no element attached yet. *)
Definition createViewer : Viewer := {|
  position := defaultPosition withDefaults;
  scale := defaultScale withDefaults;
  ignoreScale := defaultIgnoreScale withDefaults;
  lockToBoundaries := defaultLockToBoundaries withDefaults;
  actionKey := defaultActionKey withDefaults;
  pinchBehavior := defaultPinchBehavior withDefaults;
  viewerRef := None;
  containerRef := None;
  offset := mkPosition 0 0;
  lastCenter := None;
  lastDistance := None;
  hasActionKeyPressed :=
    match defaultActionKey withDefaults with None => true | Some _ => false end;
  hasPointerDown := false;
  isMoving := false
|}.

End CreateViewer.

(** ** The presentation layer *)

(** [SVGViewer.svelte] draws the container as
    [<g transform="translate(x y), scale(s)">] inside the viewer's [<svg>]:
    once a new [position] and [scale] are rendered, the container's rectangle
    is the old one moved by the new translation and stretched by the ratio of
    the two scales.  [rerender before after] is [after] with the container
    measured again. *)
Definition rerenderRect (vr r : DOMRect) (before after : Viewer) : DOMRect :=
  let ratio := scale after / scale before in
  mkRect
    (rect_x vr + px (position after)
     + ratio * (rect_x r - rect_x vr - px (position before)))
    (rect_y vr + py (position after)
     + ratio * (rect_y r - rect_y vr - py (position before)))
    (width r * ratio)
    (height r * ratio).


(** The content rectangle covers the frame rectangle when the content's
    top-left corner sits at [p] (frame-local): the boundary invariant. *)
Definition covers (frame content : DOMRect) (p : Position) : Prop :=
  (- (width content - width frame) <= px p /\ px p <= 0) /\
  (- (height content - height frame) <= py p /\ py p <= 0).

(** The content is at least as large as the frame on both axes. *)
Definition fills (frame content : DOMRect) : Prop :=
  width frame <= width content /\ height frame <= height content.

(** ** Calls into the engine *)

(** The methods and listeners that [createViewer] returns, with their
    arguments; [EvPinchMove] is the inner [onPinchMove], reached through
    [onTouchMove]. *)
Inductive Call : Type :=
| CallPanTo (x y : Q)
| CallPan (x y : Q)
| CallZoom (x y newScale : Q)
| CallZoomOnCenter (newScale : Q)
| CallFitToViewer (forceScale : bool)
| CallFitSelection (x y selectionWidth selectionHeight : Q)
| CallCenter
| EvMouseDown (e : MouseEvent)
| EvMouseMove (e : MouseEvent)
| EvMouseUp (e : MouseEvent)
| EvWheel (e : WheelEvent)
| EvTouchStart (e : TouchEvent)
| EvTouchMove (e : TouchEvent)
| EvPinchMove (e : TouchEvent)
| EvTouchEnd (e : TouchEvent)
| EvKeyDown (e : KeyboardEvent)
| EvKeyUp (e : KeyboardEvent).

Definition run (props : CreateSVGViewerProps) (sqrt : Q -> Q) (c : Call)
    (v : Viewer) : option Viewer :=
  match c with
  | CallPanTo x y => Some (panTo x y v)
  | CallPan x y => Some (pan x y v)
  | CallZoom x y s => Some (zoom props x y s v)
  | CallZoomOnCenter s => Some (zoomOnCenter props s v)
  | CallFitToViewer force => Some (fitToViewer props force v)
  | CallFitSelection x y w h => Some (fitSelection props x y w h v)
  | CallCenter => Some (center v)
  | EvMouseDown e => Some (onMouseDown e v)
  | EvMouseMove e => Some (onMouseMove e v)
  | EvMouseUp e => Some (onMouseUp e v)
  | EvWheel e => Some (onWheel props e v)
  | EvTouchStart e => onTouchStart sqrt e v
  | EvTouchMove e => onTouchMove props sqrt e v
  | EvPinchMove e => onPinchMove props sqrt e v
  | EvTouchEnd e => Some (onTouchEnd e v)
  | EvKeyDown e => Some (onKeyDown e v)
  | EvKeyUp e => Some (onKeyUp e v)
  end.

Definition isKeyCall (c : Call) : bool :=
  match c with
  | EvKeyDown _ | EvKeyUp _ => true
  | _ => false
  end.

(** What [createViewer] hands out: the [states] and the [refs]. *)
Record Exposed : Type := mkExposed {
  ex_position : Position;
  ex_ignoreScale : bool;
  ex_scale : Q;
  ex_lockToBoundaries : bool;
  ex_isMoving : bool;
  ex_pinchBehavior : PinchBehavior;
  ex_viewerRef : option SVGElement;
  ex_containerRef : option SVGElement
}.

Definition exposed (v : Viewer) : Exposed :=
  mkExposed (position v) (ignoreScale v) (scale v) (lockToBoundaries v)
    (isMoving v) (pinchBehavior v) (viewerRef v) (containerRef v).

(** ** The two branches of [zoom] *)

(** The scale [zoom] works with: its argument after the min/max pre-clamp
    (skipped under IgnoreScale). *)
Definition zoomScale (props : CreateSVGViewerProps) (newScale : Q)
    (v : Viewer) : Q :=
  if negb (ignoreScale v) then
    let newScale :=
      if newScale >? maxScale props then maxScale props else newScale in
    if newScale <? minScale props then minScale props else newScale
  else newScale.

(** The test that sends [zoom] into [fitToViewer]. *)
Definition zoomFallsBack (props : CreateSVGViewerProps) (newScale : Q)
    (v : Viewer) : bool :=
  match refs v with
  | None => false
  | Some (containerEl, viewerEl) =>
      let scaleDiff := zoomScale props newScale v / scale v in
      lockToBoundaries v &&
      ((width (getBoundingClientRect containerEl) * scaleDiff
          <? width (getBoundingClientRect viewerEl)) ||
       (height (getBoundingClientRect containerEl) * scaleDiff
          <? height (getBoundingClientRect viewerEl)))
  end.

(** Where the anchor formula of [zoom] sends the corner, before any
    clamp. *)
Definition zoomTarget (props : CreateSVGViewerProps) (x y newScale : Q)
    (v : Viewer) : Position :=
  let scaleDiff := zoomScale props newScale v / scale v in
  mkPosition (scaleDiff * (px (position v) - x) + x)
             (scaleDiff * (py (position v) - y) + y).

(** Where [zoom] puts the corner when it does not fall back. *)
Definition zoomPosition (props : CreateSVGViewerProps) (x y newScale : Q)
    (v : Viewer) (containerRect viewerRect : DOMRect) : Position :=
  let scaleDiff := zoomScale props newScale v / scale v in
  let newX := px (zoomTarget props x y newScale v) in
  let newY := py (zoomTarget props x y newScale v) in
  if lockToBoundaries v then
    mkPosition
      (Math.min 0 (Math.max newX
         (- (width containerRect * scaleDiff - width viewerRect))))
      (Math.min 0 (Math.max newY
         (- (height containerRect * scaleDiff - height viewerRect))))
  else mkPosition newX newY.

(** ** The wheel step *)



(** ** The scale [fitToViewer] proposes *)

(** [newScale] of [fitToViewer()] (no [forceScale]) as a function of the
    lock flag, the current scale and the measured sizes. *)
Definition fitScale (props : CreateSVGViewerProps) (lock : bool)
    (scale0 containerWidth containerHeight viewerWidth viewerHeight : Q) : Q :=
  let scaleY := viewerHeight / (containerHeight / scale0) in
  let scaleX := viewerWidth / (containerWidth / scale0) in
  let newScale :=
    if lock then
      if Math.abs (scaleY - 1) <? Math.abs (scaleX - 1)
      then scaleY else scaleX
    else (scaleY + scaleX) / 2 in
  Math.max (minScale props) (Math.min (maxScale props) newScale).

(** ** Positions up to equality of rationals *)

Definition pos_eq (p q : Position) : Prop :=
  px p == px q /\ py p == py q.

(** ** Replays in binary64 *)

(** Single computations of the engine repeated over primitive floats, line
    by line, for the places where rounding decides: the scale proposed by
    [fitToViewer()] and stored through the interceptor, the content size
    measured again after a change of scale, and the corner [zoom] computes
    with LockToBoundaries off.  [Math_min] and [Math_max] are the JavaScript
    ones on numbers that are not [NaN]. *)
Module Binary64.

Import PrimFloat.

#[local] Set Warnings "-inexact-float".

Local Open Scope float_scope.

Definition Math_min (a b : float) : float := if a <? b then a else b.

Definition Math_max (a b : float) : float := if a <? b then b else a.

(** [onScaleChange] with IgnoreScale off. *)
Definition onScaleChange (minScale maxScale curr next : float) : float :=
  if maxScale <? next then curr
  else if next <? minScale then curr
  else next.

(** [newScale] of [fitToViewer()]. *)
Definition fitScale (minScale maxScale : float) (lock : bool)
    (scale0 containerWidth containerHeight viewerWidth viewerHeight : float)
    : float :=
  let initialContainerHeight := containerHeight / scale0 in
  let initialContainerWidth := containerWidth / scale0 in
  let scaleY := viewerHeight / initialContainerHeight in
  let scaleX := viewerWidth / initialContainerWidth in
  let newScale :=
    if lock then
      if abs (scaleY - 1) <? abs (scaleX - 1) then scaleY else scaleX
    else (scaleY + scaleX) / 2 in
  Math_max minScale (Math_min maxScale newScale).




End Binary64.

(** ** Concrete viewers used by the examples *)

Definition elementOf (x y w h : Q) : SVGElement := mkElement (mkRect x y w h).

(** A 500 x 500 frame, and contents of 1000 x 1000 and 100 x 100. *)
Definition frame500 : SVGElement := elementOf 0 0 500 500.
Definition content1000 : SVGElement := elementOf 0 0 1000 1000.
Definition content100 : SVGElement := elementOf 0 0 100 100.

(** [bind:this] of the template: both references attached. *)
Definition attach (viewerEl containerEl : SVGElement) (v : Viewer) : Viewer :=
  set_containerRef (Some containerEl) (set_viewerRef (Some viewerEl) v).

Definition lockedProps : CreateSVGViewerProps := {|
  defaultPosition := mkPosition 0 0;
  maxScale := 14 # 10;
  minScale := 6 # 10;
  defaultIgnoreScale := false;
  defaultScale := 1;
  scaleMouseSensitivity := 11 # 10;
  scaleTouchpadSensitivity := 106 # 100;
  defaultLockToBoundaries := true;
  defaultActionKey := None;
  defaultPinchBehavior := zoomOnly
|}.

Definition keyedProps : CreateSVGViewerProps := {|
  defaultPosition := mkPosition 0 0;
  maxScale := 14 # 10;
  minScale := 6 # 10;
  defaultIgnoreScale := false;
  defaultScale := 1;
  scaleMouseSensitivity := 11 # 10;
  scaleTouchpadSensitivity := 106 # 100;
  defaultLockToBoundaries := false;
  defaultActionKey := Some "Control"%string;
  defaultPinchBehavior := zoomOnly
|}.

(** Defaults, large content. *)
Definition viewerA : Viewer :=
  attach frame500 content1000 (createViewer defaultProps).

(** Locked, large content. *)
Definition viewerL : Viewer :=
  attach frame500 content1000 (createViewer lockedProps).

(** Locked, content smaller than the frame. *)
Definition viewerS : Viewer :=
  attach frame500 content100 (createViewer lockedProps).

(** A square root that is exact on squares of rationals, for the examples
    that need a value of [Math.sqrt]. *)
Definition exact_sqrt (q : Q) : Q :=
  let r := Qred q in
  inject_Z (Z.sqrt (Qnum r)) / inject_Z (Z.sqrt (Zpos (Qden r))).

(** A pinch under way on [viewerA]: the last centre was [(50, 0)], the
    last distance [100]. *)
Definition pinchViewer : Viewer :=
  set_lastCenter (Some (mkPosition 50 0))
    (set_lastDistance (Some 100) viewerA).

(** Two touches on the x axis, [d] apart. *)
Definition twoTouches (d : Q) : TouchEvent :=
  mkTouchEvent [mkTouch 0 0; mkTouch d 0].

(** One touch at [(x, y)]. *)
Definition oneTouch (x y : Q) : TouchEvent := mkTouchEvent [mkTouch x y].

(** * Properties *)

(** ** Boolean comparisons *)

Lemma Qltb_true (a b : Q) : (a <? b) = true <-> a < b.
Proof.
  unfold Qltb. rewrite negb_true_iff, <- not_true_iff_false, Qle_bool_iff.
  split; intro H; lra.
Qed.

Lemma Qltb_false (a b : Q) : (a <? b) = false <-> b <= a.
Proof.
  unfold Qltb. rewrite negb_false_iff, Qle_bool_iff. tauto.
Qed.

Lemma Qgtb_true (a b : Q) : (a >? b) = true <-> b < a.
Proof. apply Qltb_true. Qed.

Lemma Qgtb_false (a b : Q) : (a >? b) = false <-> a <= b.
Proof. apply Qltb_false. Qed.

Lemma Qleb_true (a b : Q) : (a <=? b) = true <-> a <= b.
Proof. apply Qle_bool_iff. Qed.

Lemma Qleb_false (a b : Q) : (a <=? b) = false <-> b < a.
Proof.
  rewrite <- not_true_iff_false, Qle_bool_iff. split; intro H; lra.
Qed.

Lemma Qgeb_true (a b : Q) : (a >=? b) = true <-> b <= a.
Proof. apply Qle_bool_iff. Qed.

Lemma Qgeb_false (a b : Q) : (a >=? b) = false <-> a < b.
Proof. apply Qleb_false. Qed.

Lemma Qeqb_true (a b : Q) : (a =? b) = true <-> a == b.
Proof. apply Qeq_bool_iff. Qed.

Lemma Qeqb_false (a b : Q) : (a =? b) = false <-> ~ a == b.
Proof. rewrite <- not_true_iff_false, Qeq_bool_iff. tauto. Qed.

(** Split on one boolean comparison of the goal and read it as an order
    fact; [>?] goes first because [zoom] nests it under [<?]. *)
Ltac qcase :=
  match goal with
  | |- context [?a >? ?b] =>
      let H := fresh "Hgt" in
      destruct (a >? b) eqn:H;
      [apply Qgtb_true in H | apply Qgtb_false in H]
  | |- context [?a <? ?b] =>
      let H := fresh "Hlt" in
      destruct (a <? b) eqn:H;
      [apply Qltb_true in H | apply Qltb_false in H]
  | |- context [?a <=? ?b] =>
      let H := fresh "Hle" in
      destruct (a <=? b) eqn:H;
      [apply Qleb_true in H | apply Qleb_false in H]
  | |- context [?a >=? ?b] =>
      let H := fresh "Hge" in
      destruct (a >=? b) eqn:H;
      [apply Qgeb_true in H | apply Qgeb_false in H]
  | |- context [?a =? ?b] =>
      let H := fresh "Heq" in
      destruct (a =? b) eqn:H;
      [apply Qeqb_true in H | apply Qeqb_false in H]
  end.

(** Closed order facts between rationals, by evaluation. *)
Ltac qrefute H := vm_compute in H; apply H; reflexivity.
Ltac qdecide := vm_compute; intro; discriminate.
Ltac qeq := vm_compute; reflexivity.
Ltac conjs := repeat match goal with |- _ /\ _ => split end.

Lemma Qhalf (a : Q) : a / 2 == a * (1 # 2).
Proof. reflexivity. Qed.

(** [Math.min(0, Math.max(p, -(c - f)))] lands in [[-(c - f), 0]] as soon
    as the content side [c] is at least the frame side [f]. *)
Lemma clamp_axis (p c f : Q) :
  f <= c ->
  - (c - f) <= Math.min 0 (Math.max p (- (c - f))) /\
  Math.min 0 (Math.max p (- (c - f))) <= 0.
Proof.
  intro Hfc. unfold Math.min, Math.max. split.
  - apply Q.min_glb; [lra | apply Q.le_max_r].
  - apply Q.le_min_l.
Qed.
(** ** C1, C10: the scale interceptor *)

(** The interceptor answers with one of its two arguments. *)
Lemma onScaleChange_cases (props : CreateSVGViewerProps) (v : Viewer)
    (curr next : Q) :
  onScaleChange props v curr next = next \/
  onScaleChange props v curr next = curr.
Proof.
  unfold onScaleChange. destruct (ignoreScale v); [now left |].
  repeat qcase; auto.
Qed.

(** C1 (as amended).  With IgnoreScale set the interceptor returns the
    proposed scale unmodified.  With IgnoreScale clear it returns a value in
    [[minScale, maxScale]] provided the current scale already lies in that
    interval: an out-of-range proposal is answered with the current scale,
    whatever that is. *)
Theorem onScaleChange_in_range (props : CreateSVGViewerProps) (v : Viewer)
    (curr next : Q) :
  (ignoreScale v = true -> onScaleChange props v curr next = next) /\
  (ignoreScale v = false ->
   minScale props <= curr <= maxScale props ->
   minScale props <= onScaleChange props v curr next <= maxScale props).
Proof.
  unfold onScaleChange. split; intro Hign; rewrite Hign; [reflexivity |].
  intros [Hlo Hhi]. repeat qcase; split; lra.
Qed.

(** C10.  With IgnoreScale clear, a proposal outside [[minScale, maxScale]]
    is rejected: the interceptor returns the current scale itself, and the
    scale stored after the write is the scale stored before it. *)
Theorem onScaleChange_rejects (props : CreateSVGViewerProps) (v : Viewer)
    (curr next : Q) :
  ignoreScale v = false ->
  next > maxScale props \/ next < minScale props ->
  onScaleChange props v curr next = curr /\
  scale (scale_set props next v) = scale v.
Proof.
  intros Hign Hout.
  assert (H : forall c, onScaleChange props v c next = c).
  { intro c. unfold onScaleChange. rewrite Hign.
    repeat qcase; try reflexivity. exfalso. destruct Hout; lra. }
  split; [apply H |].
  unfold scale_set, overridable_set, overridable_update. cbn. apply H.
Qed.

Lemma onScaleChange_in_range_witness :
  minScale defaultProps
  <= onScaleChange defaultProps (createViewer defaultProps) 1 3
  <= maxScale defaultProps.
Proof.
  apply (onScaleChange_in_range defaultProps (createViewer defaultProps) 1 3);
    [reflexivity | cbn; lra].
Defined.

(** The claim without the side condition on the current scale fails: from a
    current scale of [2] (above [maxScale = 1.4]) a proposal of [3] is
    answered with [2]. *)
Lemma onScaleChange_in_range_counterexample :
  minScale defaultProps <= maxScale defaultProps /\
  ignoreScale (createViewer defaultProps) = false /\
  onScaleChange defaultProps (createViewer defaultProps) 2 3 = 2 /\
  ~ (minScale defaultProps
     <= onScaleChange defaultProps (createViewer defaultProps) 2 3
     <= maxScale defaultProps).
Proof.
  split; [cbn; lra |]. split; [reflexivity |]. split; [reflexivity |].
  intros [_ H]. cbn in H. lra.
Qed.

Lemma onScaleChange_rejects_witness :
  onScaleChange defaultProps (createViewer defaultProps) 1 2 = 1 /\
  scale (scale_set defaultProps 2 (createViewer defaultProps))
  = scale (createViewer defaultProps).
Proof.
  apply (onScaleChange_rejects defaultProps (createViewer defaultProps) 1 2);
    [reflexivity | left; cbn; lra].
Defined.

(** ** C9: missing element references *)

Lemma refs_absent (v : Viewer) :
  containerRef v = None \/ viewerRef v = None -> refs v = None.
Proof.
  unfold refs. intros [H | H]; rewrite H; [reflexivity |].
  now destruct (containerRef v).
Qed.

Lemma refs_attached (v : Viewer) (containerEl viewerEl : SVGElement) :
  containerRef v = Some containerEl -> viewerRef v = Some viewerEl ->
  refs v = Some (containerEl, viewerEl).
Proof. unfold refs. now intros -> ->. Qed.

(** Every method and every pointer, wheel and touch listener starts with the
    same guard. *)
Lemma run_guarded (props : CreateSVGViewerProps) (sqrt : Q -> Q) (c : Call)
    (v : Viewer) :
  refs v = None -> isKeyCall c = false -> run props sqrt c v = Some v.
Proof.
  intros Hrefs Hkey.
  destruct c; try discriminate Hkey; cbn [run];
    unfold panTo, pan, zoom, zoomOnCenter, fitToViewer, fitSelection, center,
      onMouseDown, onMouseMove, onMouseUp, onWheel, onTouchStart,
      onTouchMove, onPinchMove, onTouchEnd;
    rewrite Hrefs; reflexivity.
Qed.

(** The key listeners never look at the references; all they write is
    [hasActionKeyPressed]. *)
Lemma onKeyDown_exposed (e : KeyboardEvent) (v : Viewer) :
  exposed (onKeyDown e v) = exposed v.
Proof.
  unfold onKeyDown.
  destruct (repeat e || hasActionKeyPressed v); [reflexivity |].
  destruct (isActionKey v e); reflexivity.
Qed.

Lemma onKeyUp_exposed (e : KeyboardEvent) (v : Viewer) :
  exposed (onKeyUp e v) = exposed v.
Proof.
  unfold onKeyUp.
  destruct (negb (hasActionKeyPressed v)); [reflexivity |].
  destruct (isActionKey v e); reflexivity.
Qed.

(** C9 (as amended).  When the frame or the content reference is absent,
    every method ([panTo], [pan], [zoom], [zoomOnCenter], [fitToViewer],
    [fitSelection], [center]) and every pointer, wheel and touch listener
    returns normally and leaves the whole closure as it was.  The two key
    listeners return normally too and leave [position], [scale] and the other
    exposed stores and references as they were (they do not consult the
    references and may still flip the private action-key flag). *)
Theorem absent_refs_noop (props : CreateSVGViewerProps) (sqrt : Q -> Q)
    (c : Call) (v : Viewer) :
  containerRef v = None \/ viewerRef v = None ->
  (isKeyCall c = false -> run props sqrt c v = Some v) /\
  (exists v', run props sqrt c v = Some v' /\ exposed v' = exposed v).
Proof.
  intro Habs. apply refs_absent in Habs. split.
  - now apply run_guarded.
  - destruct (isKeyCall c) eqn:Hkey.
    + destruct c; try discriminate Hkey; cbn [run]; eexists; split;
        try reflexivity; [apply onKeyDown_exposed | apply onKeyUp_exposed].
    + exists v. split; [now apply run_guarded | reflexivity].
Qed.

Lemma absent_refs_noop_witness :
  (run defaultProps exact_sqrt (CallZoom 10 10 (12 # 10))
     (createViewer defaultProps) = Some (createViewer defaultProps)) /\
  (exists v',
     run keyedProps exact_sqrt
       (EvKeyDown (mkKeyboardEvent "Control"%string false))
       (createViewer keyedProps) = Some v' /\
     exposed v' = exposed (createViewer keyedProps)).
Proof.
  split.
  - apply (absent_refs_noop defaultProps exact_sqrt
             (CallZoom 10 10 (12 # 10)) (createViewer defaultProps));
      [left; reflexivity | reflexivity].
  - apply (absent_refs_noop keyedProps exact_sqrt
             (EvKeyDown (mkKeyboardEvent "Control"%string false))
             (createViewer keyedProps)).
    left; reflexivity.
Defined.

(** The claim for every gesture listener fails at [onKeyDown]: with no
    element attached and the action key ["Control"] configured, pressing the
    key changes the closure, and the change shows once the elements are
    attached: the same mouse-down and mouse-move then drag the content,
    which they do not without the key press. *)
Lemma absent_refs_noop_counterexample :
  let v := createViewer keyedProps in
  let pressed := onKeyDown (mkKeyboardEvent "Control"%string false) v in
  let drag (w : Viewer) :=
    onMouseMove (mkMouseEvent 30 40)
      (onMouseDown (mkMouseEvent 10 10) (attach frame500 content1000 w)) in
  containerRef v = None /\ viewerRef v = None /\
  run keyedProps exact_sqrt
    (EvKeyDown (mkKeyboardEvent "Control"%string false)) v <> Some v /\
  hasActionKeyPressed v = false /\ hasActionKeyPressed pressed = true /\
  position (drag v) = mkPosition 0 0 /\
  position (drag pressed) = mkPosition (30 - (10 - 0)) (40 - (10 - 0)).
Proof.
  cbv zeta. repeat split; try reflexivity.
  cbn. intro H. discriminate H.
Qed.

(** ** C2, C3: the boundary invariant *)

(** [zoom], branch by branch. *)
Lemma zoom_branches (props : CreateSVGViewerProps) (x y newScale : Q)
    (v : Viewer) (containerEl viewerEl : SVGElement) :
  refs v = Some (containerEl, viewerEl) ->
  zoom props x y newScale v =
  if zoomFallsBack props newScale v then fitToViewer props false v
  else
    scale_set props (zoomScale props newScale v)
      (position_set
         (zoomPosition props x y newScale v
            (getBoundingClientRect containerEl)
            (getBoundingClientRect viewerEl)) v).
Proof.
  intro Hrefs. unfold zoom, zoomFallsBack, zoomPosition. rewrite Hrefs.
  fold (zoomScale props newScale v).
  destruct (lockToBoundaries v); cbn [andb];
    [destruct (_ || _) |]; reflexivity.
Qed.

(** The pre-clamped scale passes the interceptor of any closure with the
    same IgnoreScale, as long as the configured interval is not empty. *)
Lemma zoomScale_accepted (props : CreateSVGViewerProps) (newScale curr : Q)
    (v w : Viewer) :
  ignoreScale w = ignoreScale v ->
  ignoreScale v = true \/ minScale props <= maxScale props ->
  onScaleChange props w curr (zoomScale props newScale v)
  = zoomScale props newScale v.
Proof.
  intros Hw Hcfg. unfold onScaleChange, zoomScale. rewrite Hw.
  destruct (ignoreScale v); cbn [negb]; [reflexivity |].
  destruct Hcfg as [Hcfg | Hcfg]; [discriminate |].
  repeat qcase; try reflexivity; exfalso; lra.
Qed.

Lemma zoom_scale (props : CreateSVGViewerProps) (x y newScale : Q)
    (v : Viewer) (containerEl viewerEl : SVGElement) :
  refs v = Some (containerEl, viewerEl) ->
  zoomFallsBack props newScale v = false ->
  ignoreScale v = true \/ minScale props <= maxScale props ->
  scale (zoom props x y newScale v) = zoomScale props newScale v.
Proof.
  intros Hrefs Hfb Hcfg. rewrite (zoom_branches _ _ _ _ _ _ _ Hrefs), Hfb.
  unfold scale_set, overridable_set, overridable_update. cbn [scale set_scale].
  now apply zoomScale_accepted.
Qed.

Lemma zoom_position (props : CreateSVGViewerProps) (x y newScale : Q)
    (v : Viewer) (containerEl viewerEl : SVGElement) :
  refs v = Some (containerEl, viewerEl) ->
  zoomFallsBack props newScale v = false ->
  position (zoom props x y newScale v)
  = zoomPosition props x y newScale v
      (getBoundingClientRect containerEl) (getBoundingClientRect viewerEl).
Proof.
  intros Hrefs Hfb. rewrite (zoom_branches _ _ _ _ _ _ _ Hrefs), Hfb.
  reflexivity.
Qed.

Lemma ratio_one (s a : Q) : ~ s == 0 -> a * (s / s) == a.
Proof. intro Hs. field. exact Hs. Qed.

(** C2 (as amended).  Under LockToBoundaries, with both elements attached and
    a non-zero current scale: after [panTo] and after [pan] the position
    keeps the content rectangle over the frame rectangle on both axes
    provided the content rectangle is at least as large as the frame on both
    axes; after a [zoom] that does not fall back to [fitToViewer] it does so
    for the content rectangle at the resulting scale, provided the scale
    interval is not empty (or IgnoreScale is set). *)
Theorem locked_calls_cover (props : CreateSVGViewerProps) (v : Viewer)
    (containerEl viewerEl : SVGElement) :
  let frame := getBoundingClientRect viewerEl in
  let content := getBoundingClientRect containerEl in
  lockToBoundaries v = true ->
  containerRef v = Some containerEl ->
  viewerRef v = Some viewerEl ->
  ~ scale v == 0 ->
  (fills frame content ->
   forall x y,
     covers frame (rerenderRect frame content v (panTo x y v))
       (position (panTo x y v))) /\
  (fills frame content ->
   forall x y,
     covers frame (rerenderRect frame content v (pan x y v))
       (position (pan x y v))) /\
  (ignoreScale v = true \/ minScale props <= maxScale props ->
   forall x y newScale,
     zoomFallsBack props newScale v = false ->
     covers frame
       (rerenderRect frame content v (zoom props x y newScale v))
       (position (zoom props x y newScale v))).
Proof.
  intros frame content Hlock Hc Hv Hs.
  pose proof (refs_attached v containerEl viewerEl Hc Hv) as Hrefs.
  split; [| split].
  - intros [Hw Hh] x y. unfold panTo. rewrite Hrefs, Hlock.
    unfold covers, rerenderRect.
    cbn [position position_set set_position scale width height px py
         overridable_set overridable_update onPositionChange].
    rewrite !(ratio_one (scale v)) by exact Hs.
    split; apply clamp_axis; assumption.
  - intros [Hw Hh] x y. unfold pan. rewrite Hrefs, Hlock.
    unfold covers, rerenderRect.
    cbn [position position_set set_position scale width height px py
         overridable_set overridable_update onPositionChange].
    rewrite !(ratio_one (scale v)) by exact Hs.
    split; apply clamp_axis; assumption.
  - intros Hcfg x y newScale Hfb.
    unfold covers, rerenderRect. cbn [width height].
    rewrite (zoom_scale props x y newScale v _ _ Hrefs Hfb Hcfg).
    rewrite (zoom_position props x y newScale v _ _ Hrefs Hfb).
    unfold zoomFallsBack in Hfb. rewrite Hrefs, Hlock in Hfb.
    cbn [andb] in Hfb. apply orb_false_iff in Hfb. destruct Hfb as [Hw Hh].
    apply Qltb_false in Hw, Hh.
    unfold zoomPosition. rewrite Hlock. cbn [px py].
    split; apply clamp_axis; assumption.
Qed.

Lemma locked_calls_cover_witness :
  let frame := getBoundingClientRect frame500 in
  let content := getBoundingClientRect content1000 in
  covers frame (rerenderRect frame content viewerL (panTo 700 (-900) viewerL))
    (position (panTo 700 (-900) viewerL)) /\
  covers frame (rerenderRect frame content viewerL (pan (-20) 30 viewerL))
    (position (pan (-20) 30 viewerL)) /\
  covers frame
    (rerenderRect frame content viewerL
       (zoom lockedProps 250 250 (8 # 10) viewerL))
    (position (zoom lockedProps 250 250 (8 # 10) viewerL)).
Proof.
  assert (Hs : ~ scale viewerL == 0) by (cbn; lra).
  assert (Hcfg : ignoreScale viewerL = true \/
                 minScale lockedProps <= maxScale lockedProps)
    by (right; cbn; lra).
  assert (Hfill : fills (getBoundingClientRect frame500)
                    (getBoundingClientRect content1000))
    by (split; cbn; lra).
  destruct (locked_calls_cover lockedProps viewerL content1000 frame500
              eq_refl eq_refl eq_refl Hs) as [HpanTo [Hpan Hzoom]].
  split; [apply HpanTo; exact Hfill |].
  split; [apply Hpan; exact Hfill |].
  apply Hzoom; [exact Hcfg | reflexivity].
Defined.

(** Without the size condition the claim fails: a 100 x 100 content in a
    500 x 500 frame cannot cover it, and [panTo(0, 0)] leaves the position at
    [(0, 0)], to the left of the lower bound [-(100 - 500) = 400]. *)
Lemma locked_calls_cover_counterexample :
  let frame := getBoundingClientRect frame500 in
  let content := getBoundingClientRect content100 in
  lockToBoundaries viewerS = true /\
  containerRef viewerS = Some content100 /\
  viewerRef viewerS = Some frame500 /\
  position (panTo 0 0 viewerS) = mkPosition 0 0 /\
  ~ covers frame (rerenderRect frame content viewerS (panTo 0 0 viewerS))
      (position (panTo 0 0 viewerS)).
Proof.
  cbv zeta. repeat (split; [reflexivity |]).
  unfold covers. intros [[H _] _]. qrefute H.
Qed.

(** C3 (as amended).  A write to [position] stores exactly the proposed
    position: the interceptor [onPositionChange] passes it through and clamps
    nothing.  Under LockToBoundaries the invariant is established by the
    writers that clamp: with both elements attached and a content rectangle
    at least as large as the frame on both axes, the position written by the
    lock effect keeps the content over the frame, and so does the position
    written by [center]. *)
Theorem position_writes_under_lock (v : Viewer)
    (containerEl viewerEl : SVGElement) :
  let frame := getBoundingClientRect viewerEl in
  let content := getBoundingClientRect containerEl in
  (forall curr next, onPositionChange curr next = next) /\
  (forall p, position (position_set p v) = p) /\
  (lockToBoundaries v = true ->
   containerRef v = Some containerEl ->
   viewerRef v = Some viewerEl ->
   fills frame content ->
   covers frame content (position (lockEffect v)) /\
   covers frame content (position (center v))).
Proof.
  intros frame content. split; [reflexivity |]. split; [reflexivity |].
  intros Hlock Hc Hv [Hw Hh].
  pose proof (refs_attached v containerEl viewerEl Hc Hv) as Hrefs.
  split.
  - unfold lockEffect. rewrite Hlock, Hrefs. cbn [negb]. unfold covers.
    cbn [position position_update set_position px py
         overridable_update onPositionChange].
    split; apply clamp_axis; assumption.
  - unfold center. rewrite Hrefs. unfold covers.
    cbn [position position_set set_position px py
         overridable_set overridable_update onPositionChange].
    fold frame content. rewrite !Qhalf. repeat split; lra.
Qed.

Lemma position_writes_under_lock_witness :
  covers (getBoundingClientRect frame500) (getBoundingClientRect content1000)
    (position (lockEffect viewerL)) /\
  covers (getBoundingClientRect frame500) (getBoundingClientRect content1000)
    (position (center viewerL)).
Proof.
  apply (position_writes_under_lock viewerL content1000 frame500);
    try reflexivity.
  split; cbn; lra.
Defined.

(** The claim fails at [fitSelection]: locked, 1000 x 1000 content in a
    500 x 500 frame, [fitSelection(-100, -100, 500, 500)] computes the scale
    [1] and writes the position [(100, 100)], which uncovers the top-left
    corner of the frame. *)
Lemma position_writes_under_lock_counterexample :
  let frame := getBoundingClientRect frame500 in
  let content := getBoundingClientRect content1000 in
  let v' := fitSelection lockedProps (-100) (-100) 500 500 viewerL in
  lockToBoundaries viewerL = true /\
  containerRef viewerL = Some content1000 /\
  viewerRef viewerL = Some frame500 /\
  fills frame content /\
  scale v' == 1 /\
  px (position v') == 100 /\ py (position v') == 100 /\
  ~ covers frame (rerenderRect frame content viewerL v') (position v').
Proof.
  cbv zeta. repeat (split; [reflexivity |]).
  split; [split; cbn; lra |].
  repeat (split; [qeq |]).
  unfold covers. intros [[_ H] _]. qrefute H.
Qed.

(** ** C4: the anchor of [zoom] *)



Section ZoomAnchorReplay.

Import PrimFloat.

#[local] Set Warnings "-inexact-float".


End ZoomAnchorReplay.

(** ** C5: [fitSelection] *)

(** C5 (as amended).  With both elements attached and a selection of
    non-zero width and height, [fitSelection(x, y, w, h)] writes the position
    [(-x * m, -y * m)] for [m = min(frameWidth / w, frameHeight / h)].  The
    scale becomes exactly [m] when IgnoreScale is set or [m] lies in
    [[minScale, maxScale]]; otherwise the interceptor keeps the scale as it
    was. *)
Theorem fitSelection_result (props : CreateSVGViewerProps) (v : Viewer)
    (containerEl viewerEl : SVGElement) (x y w h : Q) :
  containerRef v = Some containerEl ->
  viewerRef v = Some viewerEl ->
  ~ w == 0 -> ~ h == 0 ->
  let frame := getBoundingClientRect viewerEl in
  let m := Math.min (width frame / w) (height frame / h) in
  let v' := fitSelection props x y w h v in
  position v' = mkPosition (- x * m) (- y * m) /\
  (ignoreScale v = true \/ minScale props <= m <= maxScale props ->
   scale v' = m) /\
  (ignoreScale v = false ->
   m > maxScale props \/ m < minScale props ->
   scale v' = scale v).
Proof.
  intros Hc Hv Hw Hh frame m v'.
  pose proof (refs_attached v containerEl viewerEl Hc Hv) as Hrefs.
  unfold v', fitSelection. rewrite Hrefs. fold frame. fold m.
  split; [reflexivity |].
  cbn [scale scale_set set_scale position_set set_position
       overridable_set overridable_update].
  unfold onScaleChange, position_set. cbn [ignoreScale set_position]. split.
  - intros [Hign | [Hlo Hhi]].
    + rewrite Hign. reflexivity.
    + destruct (ignoreScale v); [reflexivity |].
      repeat qcase; try reflexivity; exfalso; lra.
  - intros Hign Hout. rewrite Hign.
    repeat qcase; try reflexivity. exfalso. destruct Hout; lra.
Qed.

Lemma fitSelection_result_witness :
  let m := Math.min (500 / 400) (500 / 500) in
  let v' := fitSelection defaultProps 10 20 400 500 viewerA in
  position v' = mkPosition (- 10 * m) (- 20 * m) /\
  (ignoreScale viewerA = true \/
   minScale defaultProps <= m <= maxScale defaultProps ->
   scale v' = m) /\
  (ignoreScale viewerA = false ->
   m > maxScale defaultProps \/ m < minScale defaultProps ->
   scale v' = scale viewerA).
Proof.
  apply (fitSelection_result defaultProps viewerA content1000 frame500
           10 20 400 500); try reflexivity; cbn; lra.
Defined.

(** The claim fails when the fitted scale leaves [[minScale, maxScale]]:
    with the defaults and a 500 x 500 frame, [fitSelection(10, 10, 100, 100)]
    computes [m = 5]; the position is written for [m], but the scale write is
    rejected and the scale stays [1]. *)
Lemma fitSelection_result_counterexample :
  let m := Math.min (500 / 100) (500 / 100) in
  let v' := fitSelection defaultProps 10 10 100 100 viewerA in
  containerRef viewerA = Some content1000 /\
  viewerRef viewerA = Some frame500 /\
  m == 5 /\
  px (position v') == -50 /\ py (position v') == -50 /\
  scale v' = 1 /\
  ~ scale v' == m.
Proof.
  cbv zeta. conjs; try reflexivity; try qeq.
  intro H. vm_compute in H. discriminate H.
Qed.

(** ** C7: the wheel *)




(** ** C6: the pinch *)

Lemma pan_scale (x y : Q) (v : Viewer) : scale (pan x y v) = scale v.
Proof. unfold pan. destruct (refs v) as [[c vw] |]; reflexivity. Qed.

(** An in-range scale goes through the pre-clamp of [zoom] untouched. *)
Lemma zoomScale_in_range (props : CreateSVGViewerProps) (newScale : Q)
    (v : Viewer) :
  minScale props <= newScale <= maxScale props ->
  zoomScale props newScale v = newScale.
Proof.
  intros [Hlo Hhi]. unfold zoomScale. destruct (ignoreScale v); cbn [negb];
    [reflexivity |].
  repeat qcase; try reflexivity; exfalso; lra.
Qed.

(** C6 (as amended).  For a pinch whose baseline is primed (last centre set,
    last distance [d0] non-zero), with both elements attached and no drag in
    progress, let [d1] be the distance of the two touches and
    [newScale = oldScale * (d1 / d0)].  The move is tested, not clamped: if
    [newScale] differs from [oldScale], lies in [[minScale, maxScale]]
    ([newScale] itself is compared with the two bounds) and the content
    rectangle scaled by [newScale / oldScale] is strictly larger than the
    frame rectangle on both axes, the committed scale is exactly [newScale]
    and the baseline advances to [d1]; if [newScale] lies outside
    [[minScale, maxScale]] the move is dropped and the closure, scale
    included, stays as it was. *)
Theorem onPinchMove_commit (props : CreateSVGViewerProps) (sqrt : Q -> Q)
    (v : Viewer) (containerEl viewerEl : SVGElement) (event : TouchEvent)
    (touch1 touch2 : Touch) (rest : list Touch) (lastCenter0 : Position)
    (d0 : Q) :
  containerRef v = Some containerEl ->
  viewerRef v = Some viewerEl ->
  isMoving v = false ->
  touches event = touch1 :: touch2 :: rest ->
  lastCenter v = Some lastCenter0 ->
  lastDistance v = Some d0 ->
  ~ d0 == 0 ->
  let frame := getBoundingClientRect viewerEl in
  let content := getBoundingClientRect containerEl in
  let d1 := getPinchDistance sqrt (touchPos touch1) (touchPos touch2) in
  let newScale := scale v * (d1 / d0) in
  (~ scale v == newScale ->
   minScale props <= newScale <= maxScale props ->
   width content * (newScale / scale v) > width frame ->
   height content * (newScale / scale v) > height frame ->
   exists v',
     onPinchMove props sqrt event v = Some v' /\
     scale v' = newScale /\
     lastDistance v' = Some d1) /\
  (newScale > maxScale props \/ newScale < minScale props ->
   onPinchMove props sqrt event v = Some v).
Proof.
  intros Hc Hv Hmov Htouch Hlc Hld Hd0 frame content d1 newScale.
  pose proof (refs_attached v containerEl viewerEl Hc Hv) as Hrefs.
  assert (Htruthy : truthy d0 = true).
  { unfold truthy. apply negb_true_iff. now apply Qeqb_false. }
  split.
  - intros Hneq [Hlo Hhi] Hw Hh.
    unfold onPinchMove. rewrite Hrefs, Hmov, Htouch. cbn [nth_error].
    rewrite Hlc. fold d1. rewrite Hld, Htruthy. fold newScale.
    apply Qeqb_false in Hneq. rewrite Hneq.
    apply Qleb_true in Hhi. rewrite Hhi.
    apply Qgeb_true in Hlo. rewrite Hlo.
    fold content frame.
    apply Qgtb_true in Hw. rewrite Hw.
    apply Qgtb_true in Hh. rewrite Hh. cbn [andb].
    eexists. split; [reflexivity |].
    cbn [scale lastDistance set_lastCenter set_lastDistance].
    split; [| reflexivity].
    apply Qleb_true in Hhi. apply Qgeb_true in Hlo.
    apply Qgtb_true in Hw. apply Qgtb_true in Hh.
    assert (Hzs : zoomScale props newScale v = newScale)
      by (apply zoomScale_in_range; split; assumption).
    assert (Hfb : zoomFallsBack props newScale v = false).
    { unfold zoomFallsBack. rewrite Hrefs, Hzs. fold content frame.
      apply andb_false_iff. right. apply orb_false_iff.
      split; apply Qltb_false; lra. }
    assert (Hz : forall x y, scale (zoom props x y newScale v) = newScale).
    { intros x y. rewrite <- Hzs at 2.
      apply (zoom_scale props x y newScale v _ _ Hrefs Hfb).
      right. lra. }
    destruct (pinchBehavior v); [rewrite pan_scale |]; apply Hz.
  - intros Hout.
    unfold onPinchMove. rewrite Hrefs, Hmov, Htouch. cbn [nth_error].
    rewrite Hlc. fold d1. rewrite Hld, Htruthy. fold newScale.
    destruct (scale v =? newScale); [reflexivity |].
    destruct Hout as [Hout | Hout].
    + apply Qleb_false in Hout. rewrite Hout. reflexivity.
    + apply Qgeb_false in Hout. rewrite Hout, andb_false_r. reflexivity.
Qed.

Lemma onPinchMove_commit_witness :
  let d1 := getPinchDistance exact_sqrt (mkPosition 0 0) (mkPosition 120 0) in
  exists v',
    onPinchMove defaultProps exact_sqrt (twoTouches 120) pinchViewer = Some v'
    /\ scale v' = scale pinchViewer * (d1 / 100)
    /\ lastDistance v' = Some d1.
Proof.
  assert (Hd0 : ~ 100 == 0) by (intro H; discriminate H).
  destruct (onPinchMove_commit defaultProps exact_sqrt pinchViewer
              content1000 frame500 (twoTouches 120)
              (mkTouch 0 0) (mkTouch 120 0) [] (mkPosition 50 0) 100
              eq_refl eq_refl eq_refl eq_refl eq_refl eq_refl Hd0)
    as [Hcommit _].
  apply Hcommit.
  - intro H. vm_compute in H. discriminate H.
  - split; qdecide.
  - reflexivity.
  - reflexivity.
Defined.

(** The claim read as a clamp fails: at scale [1], with the last distance
    [100], two touches [200] apart give [newScale = 2]; clamping would commit
    [maxScale = 1.4], the engine drops the move and the scale stays [1]. *)
Lemma onPinchMove_commit_counterexample :
  let d1 := getPinchDistance exact_sqrt (mkPosition 0 0) (mkPosition 200 0) in
  let clamped :=
    Math.max (minScale defaultProps)
      (Math.min (maxScale defaultProps) (scale pinchViewer * (d1 / 100))) in
  lastCenter pinchViewer = Some (mkPosition 50 0) /\
  lastDistance pinchViewer = Some 100 /\
  d1 == 200 /\
  clamped == 14 # 10 /\
  onPinchMove defaultProps exact_sqrt (twoTouches 200) pinchViewer
    = Some pinchViewer /\
  ~ scale pinchViewer == clamped.
Proof.
  cbv zeta. conjs; try reflexivity; try qeq.
  intro H. vm_compute in H. discriminate H.
Qed.

(** The range test of the second copy ([src/unnamed/part_000]) compares
    [oldScale * newScale] with the bounds: at scale [1.2], a pinch from
    distance [100] to [110] gives [newScale = 1.32], inside [[0.6, 1.4]];
    [onPinchMove] commits it, the copy drops the move because
    [1.2 * 1.32 > 1.4]. *)
Lemma onPinchMove_part_000_range_test :
  let v := set_scale (12 # 10) pinchViewer in
  onPinchMove_part_000 defaultProps exact_sqrt (twoTouches 110) v = Some v /\
  exists v',
    onPinchMove defaultProps exact_sqrt (twoTouches 110) v = Some v' /\
    scale v' == 132 # 100.
Proof.
  cbv zeta. split; [reflexivity |].
  eexists. split; [reflexivity | qeq].
Qed.

(** ** C8: [fitToViewer] twice *)

Lemma fitToViewer_unfold (props : CreateSVGViewerProps) (v : Viewer)
    (containerEl viewerEl : SVGElement) :
  refs v = Some (containerEl, viewerEl) ->
  fitToViewer props false v =
  position_set (mkPosition 0 0)
    (scale_set props
       (fitScale props (lockToBoundaries v) (scale v)
          (width (getBoundingClientRect containerEl))
          (height (getBoundingClientRect containerEl))
          (width (getBoundingClientRect viewerEl))
          (height (getBoundingClientRect viewerEl))) v).
Proof. intro Hrefs. unfold fitToViewer. rewrite Hrefs. reflexivity. Qed.


Lemma onScaleChange_accepts (props : CreateSVGViewerProps) (w : Viewer)
    (curr next : Q) :
  minScale props <= next <= maxScale props ->
  onScaleChange props w curr next = next.
Proof.
  intros [Hlo Hhi]. unfold onScaleChange. destruct (ignoreScale w);
    [reflexivity |].
  repeat qcase; try reflexivity; exfalso; lra.
Qed.

Lemma clamp_in_range (lo hi a : Q) :
  lo <= hi -> lo <= Math.max lo (Math.min hi a) <= hi.
Proof.
  intro H. unfold Math.max, Math.min. split.
  - apply Q.le_max_l.
  - apply Q.max_lub; [exact H | apply Q.le_min_l].
Qed.

Lemma fitToViewer_scale_in_range (props : CreateSVGViewerProps) (v : Viewer)
    (containerEl viewerEl : SVGElement) :
  refs v = Some (containerEl, viewerEl) ->
  minScale props <= maxScale props ->
  minScale props <= scale (fitToViewer props false v) <= maxScale props.
Proof.
  intros Hrefs Hcfg. rewrite (fitToViewer_unfold props v _ _ Hrefs).
  cbn [scale position_set set_position scale_set set_scale overridable_set
       overridable_update].
  unfold fitScale. set (raw := if lockToBoundaries v then _ else _).
  rewrite onScaleChange_accepts; now apply clamp_in_range.
Qed.



Section FitTwiceReplay.

Import PrimFloat.

#[local] Set Warnings "-inexact-float".


End FitTwiceReplay.

(** ** Scenarios of the specification *)

(** Defaults, 500 x 500 frame, 1000 x 1000 content: [center()] moves the
    content to [(-250, -250)]. *)
Example scenario_center :
  px (position (center viewerA)) == -250 /\
  py (position (center viewerA)) == -250.
Proof. split; qeq. Qed.

(** [minScale = 0.6], [maxScale = 1.4], scale [1]: [zoomOnCenter(2)] applies
    [1.4]. *)
Example scenario_zoomOnCenter :
  scale (zoomOnCenter defaultProps 2 viewerA) == 14 # 10.
Proof. qeq. Qed.

(** Action key ["Control"] configured and not held: mouse-down does not arm
    the drag and the following mouse-move does not move the content. *)
Example scenario_action_key :
  let v := attach frame500 content1000 (createViewer keyedProps) in
  let down := onMouseDown (mkMouseEvent 10 10) v in
  hasPointerDown down = false /\
  position (onMouseMove (mkMouseEvent 30 40) down) = position v.
Proof. split; reflexivity. Qed.

(** * Further properties of the engine *)

(** ** Dragging with the mouse *)

(** A mouse drag is computed from the mouse-down alone.  With both elements
    attached and the action key satisfied, after [onMouseDown] at [e0] the
    position after an [onMouseMove] to [e2] is the same whether or not other
    moves came in between (locked or not): nothing accumulates over the
    moves of one drag.  With LockToBoundaries off that position is, per
    axis, [(e2 - r) - ((e0 - r) - p)] for the frame's origin [r] and the
    position [p] at mouse-down, evaluated as written; the viewer reports
    that it is moving and the scale is untouched. *)
Theorem mouse_drag_follows_pointer (v : Viewer)
    (containerEl viewerEl : SVGElement) (e0 e1 e2 : MouseEvent) :
  let r := getBoundingClientRect viewerEl in
  containerRef v = Some containerEl ->
  viewerRef v = Some viewerEl ->
  hasActionKeyPressed v = true ->
  let v1 := onMouseMove e1 (onMouseDown e0 v) in
  let v2 := onMouseMove e2 v1 in
  position v2 = position (onMouseMove e2 (onMouseDown e0 v)) /\
  (lockToBoundaries v = false ->
   position v2 =
   mkPosition
     (clientX e2 - rect_x r - (clientX e0 - rect_x r - px (position v)))
     (clientY e2 - rect_y r - (clientY e0 - rect_y r - py (position v)))) /\
  isMoving v1 = true /\ isMoving v2 = true /\
  scale v2 = scale v.
Proof.
  intros r Hc Hv Hkey v1 v2.
  destruct v as [pos sc ign lock ak pb vref cref off lc ld akp hpd mov].
  cbn in Hc, Hv, Hkey. subst vref cref akp.
  unfold v2, v1, onMouseDown, onMouseMove, panTo, refs.
  cbn. destruct mov, lock; cbn; repeat split; try reflexivity;
    intro Hlock; try discriminate Hlock; reflexivity.
Qed.

Lemma mouse_drag_follows_pointer_witness :
  let v1 :=
    onMouseMove (mkMouseEvent 30 40) (onMouseDown (mkMouseEvent 10 10) viewerA)
  in
  let v2 := onMouseMove (mkMouseEvent 5 90) v1 in
  position v2
  = position
      (onMouseMove (mkMouseEvent 5 90)
         (onMouseDown (mkMouseEvent 10 10) viewerA)) /\
  position v2 =
  mkPosition (5 - 0 - (10 - 0 - px (position viewerA)))
             (90 - 0 - (10 - 0 - py (position viewerA))) /\
  isMoving v1 = true /\ isMoving v2 = true /\
  scale v2 = scale viewerA.
Proof.
  destruct (mouse_drag_follows_pointer viewerA content1000 frame500
              (mkMouseEvent 10 10) (mkMouseEvent 30 40) (mkMouseEvent 5 90)
              eq_refl eq_refl eq_refl) as [H1 [H2 H3]].
  split; [exact H1 |]. split; [apply H2; reflexivity | exact H3].
Defined.

(** [onMouseUp] ends a drag: with both elements attached it clears the
    moving flag, the armed flag and the drag offset, leaves position and
    scale alone, and every later [onMouseMove] (until the next mouse-down)
    does nothing. *)
Theorem mouse_up_ends_drag (v : Viewer) (containerEl viewerEl : SVGElement)
    (e : MouseEvent) :
  containerRef v = Some containerEl ->
  viewerRef v = Some viewerEl ->
  let v' := onMouseUp e v in
  isMoving v' = false /\ hasPointerDown v' = false /\
  offset v' = mkPosition 0 0 /\
  position v' = position v /\ scale v' = scale v /\
  forall e' : MouseEvent, onMouseMove e' v' = v'.
Proof.
  intros Hc Hv v'.
  pose proof (refs_attached v containerEl viewerEl Hc Hv) as Hrefs.
  unfold v', onMouseUp. rewrite Hrefs. repeat (split; [reflexivity |]).
  intro e'. unfold onMouseMove.
  destruct (refs _) as [[c vw] |]; [| reflexivity].
  cbn [hasActionKeyPressed hasPointerDown isMoving set_offset
       set_hasPointerDown set_isMoving].
  destruct (negb (hasActionKeyPressed v)); reflexivity.
Qed.

Lemma mouse_up_ends_drag_witness :
  let v' := onMouseUp (mkMouseEvent 0 0) viewerA in
  isMoving v' = false /\ hasPointerDown v' = false /\
  offset v' = mkPosition 0 0 /\
  position v' = position viewerA /\ scale v' = scale viewerA /\
  forall e' : MouseEvent, onMouseMove e' v' = v'.
Proof.
  apply (mouse_up_ends_drag viewerA content1000 frame500 (mkMouseEvent 0 0));
    reflexivity.
Defined.

(** ** The action key *)

(** While the action key is not held, the mouse and wheel listeners that
    start or perform a gesture ([onMouseDown], [onMouseMove], [onWheel]) do
    nothing at all, attached elements or not. *)
Theorem pointer_needs_action_key (props : CreateSVGViewerProps) (v : Viewer)
    (e e' : MouseEvent) (w : WheelEvent) :
  hasActionKeyPressed v = false ->
  onMouseDown e v = v /\ onMouseMove e' v = v /\ onWheel props w v = v.
Proof.
  intro Hkey. unfold onMouseDown, onMouseMove, onWheel.
  destruct (refs v) as [[c vw] |]; rewrite ?Hkey; repeat split.
Qed.

Lemma pointer_needs_action_key_witness :
  let v := attach frame500 content1000 (createViewer keyedProps) in
  onMouseDown (mkMouseEvent 10 10) v = v /\
  onMouseMove (mkMouseEvent 30 40) v = v /\
  onWheel keyedProps (mkWheelEvent (mkMouseEvent 10 10) 0 (-100)) v = v.
Proof.
  apply (pointer_needs_action_key keyedProps
           (attach frame500 content1000 (createViewer keyedProps))
           (mkMouseEvent 10 10) (mkMouseEvent 30 40)
           (mkWheelEvent (mkMouseEvent 10 10) 0 (-100))).
  reflexivity.
Defined.

(** Pressing and releasing the configured action key is a round trip, and
    nothing else reaches the flag: from a closure where the key is not held,
    a non-repeated key-down of the action key followed by its key-up gives
    the closure back (with the flag raised in between); a key-down flagged
    as a repeat, a key other than the action key, and any key when no action
    key is configured all leave the closure as it is. *)
Theorem action_key_press_release (v : Viewer) (e : KeyboardEvent) :
  (forall k, actionKey v = Some k -> key e = k -> repeat e = false ->
     hasActionKeyPressed v = false ->
     hasActionKeyPressed (onKeyDown e v) = true /\
     onKeyUp e (onKeyDown e v) = v) /\
  (repeat e = true -> onKeyDown e v = v) /\
  (forall k, actionKey v = Some k -> key e <> k ->
     onKeyDown e v = v /\ onKeyUp e v = v) /\
  (actionKey v = None -> onKeyDown e v = v /\ onKeyUp e v = v).
Proof.
  unfold onKeyDown, onKeyUp, isActionKey. split; [| split; [| split]].
  - intros k Hk He Hrep Hheld. rewrite Hk, He, Hrep, Hheld, String.eqb_refl.
    cbn [orb negb hasActionKeyPressed actionKey set_hasActionKeyPressed].
    rewrite Hk, String.eqb_refl. split; [reflexivity |].
    destruct v. cbn in *. subst. reflexivity.
  - intro Hrep. rewrite Hrep. reflexivity.
  - intros k Hk Hne. rewrite Hk.
    assert (E : String.eqb k (key e) = false)
      by (apply String.eqb_neq; congruence).
    rewrite E. split.
    + now destruct (repeat e || hasActionKeyPressed v).
    + now destruct (negb (hasActionKeyPressed v)).
  - intro Hk. rewrite Hk. split.
    + now destruct (repeat e || hasActionKeyPressed v).
    + now destruct (negb (hasActionKeyPressed v)).
Qed.

Lemma action_key_press_release_witness :
  let v := createViewer keyedProps in
  let e := mkKeyboardEvent "Control"%string false in
  hasActionKeyPressed (onKeyDown e v) = true /\ onKeyUp e (onKeyDown e v) = v.
Proof.
  cbv zeta.
  destruct (action_key_press_release (createViewer keyedProps)
              (mkKeyboardEvent "Control"%string false)) as [Hround _].
  apply (Hround "Control"%string); reflexivity.
Defined.

(** ** Dragging with one finger *)

(** A one-finger touch drags like the mouse and does not ask for the action
    key: with both elements attached and LockToBoundaries off, after
    [onTouchStart] with a single touch [t0], [onTouchMove] with a single
    touch [t1] succeeds and puts the position, per axis, at
    [(t1 - r) - ((t0 - r) - p)] for the frame's origin [r] and the position
    [p] at touch-start, evaluated as written; the viewer reports that it is
    moving, whether or not the action key is held. *)
Theorem touch_drag_follows_finger (props : CreateSVGViewerProps)
    (sqrt : Q -> Q) (v : Viewer) (containerEl viewerEl : SVGElement)
    (t0 t1 : Touch) :
  let r := getBoundingClientRect viewerEl in
  containerRef v = Some containerEl ->
  viewerRef v = Some viewerEl ->
  lockToBoundaries v = false ->
  exists v0 v1,
    onTouchStart sqrt (mkTouchEvent [t0]) v = Some v0 /\
    onTouchMove props sqrt (mkTouchEvent [t1]) v0 = Some v1 /\
    position v1 =
    mkPosition
      (touch_clientX t1 - rect_x r
       - (touch_clientX t0 - rect_x r - px (position v)))
      (touch_clientY t1 - rect_y r
       - (touch_clientY t0 - rect_y r - py (position v))) /\
    isMoving v1 = true /\
    hasActionKeyPressed v1 = hasActionKeyPressed v.
Proof.
  intros r Hc Hv Hlock.
  destruct v as [pos sc ign lock ak pb vref cref off lc ld akp hpd mov].
  cbn in Hc, Hv, Hlock. subst vref cref lock.
  unfold onTouchStart, onTouchMove, getTouchPosition, isPinchGesture, panTo,
    refs.
  destruct mov; cbn; eexists; eexists; (split; [reflexivity |]); cbn;
    repeat split.
Qed.

Lemma touch_drag_follows_finger_witness :
  exists v0 v1,
    onTouchStart exact_sqrt (oneTouch 10 10)
      (attach frame500 content1000 (createViewer keyedProps)) = Some v0 /\
    onTouchMove keyedProps exact_sqrt (oneTouch 30 40) v0 = Some v1 /\
    position v1 = mkPosition (30 - 0 - (10 - 0 - 0)) (40 - 0 - (10 - 0 - 0))
    /\ isMoving v1 = true /\
    hasActionKeyPressed v1 = false.
Proof.
  apply (touch_drag_follows_finger keyedProps exact_sqrt
           (attach frame500 content1000 (createViewer keyedProps))
           content1000 frame500 (mkTouch 10 10) (mkTouch 30 40));
    reflexivity.
Defined.

(** [onTouchEnd] ends a drag, and a stray one-finger [onTouchMove] arriving
    after it moves nothing.  The pinch baseline is cleared only when the
    ending event still lists two or more touches; otherwise [lastCenter] and
    [lastDistance] stay as they were. *)
Theorem touch_end_ends_drag (props : CreateSVGViewerProps) (sqrt : Q -> Q)
    (v : Viewer) (containerEl viewerEl : SVGElement) (e : TouchEvent) :
  containerRef v = Some containerEl ->
  viewerRef v = Some viewerEl ->
  let v' := onTouchEnd e v in
  isMoving v' = false /\ hasPointerDown v' = false /\
  position v' = position v /\ scale v' = scale v /\
  (forall t : Touch,
     onTouchMove props sqrt (mkTouchEvent [t]) v' = Some v') /\
  (isPinchGesture e = true ->
   lastCenter v' = None /\ lastDistance v' = Some 0) /\
  (isPinchGesture e = false ->
   lastCenter v' = lastCenter v /\ lastDistance v' = lastDistance v).
Proof.
  intros Hc Hv v'.
  pose proof (refs_attached v containerEl viewerEl Hc Hv) as Hrefs.
  unfold v', onTouchEnd. rewrite Hrefs.
  destruct (isPinchGesture e) eqn:Hp; repeat split; try discriminate;
    intro t; unfold onTouchMove, refs; cbn; unfold refs in Hrefs;
    rewrite Hc, Hv; reflexivity.
Qed.

Lemma touch_end_ends_drag_witness :
  let v' := onTouchEnd (mkTouchEvent []) pinchViewer in
  isMoving v' = false /\ hasPointerDown v' = false /\
  position v' = position pinchViewer /\ scale v' = scale pinchViewer /\
  (forall t : Touch,
     onTouchMove defaultProps exact_sqrt (mkTouchEvent [t]) v' = Some v') /\
  (isPinchGesture (mkTouchEvent []) = true ->
   lastCenter v' = None /\ lastDistance v' = Some 0) /\
  (isPinchGesture (mkTouchEvent []) = false ->
   lastCenter v' = lastCenter pinchViewer /\
   lastDistance v' = lastDistance pinchViewer).
Proof.
  apply (touch_end_ends_drag defaultProps exact_sqrt pinchViewer
           content1000 frame500 (mkTouchEvent [])); reflexivity.
Defined.

(** ** Starting a pinch *)

(** The first move of a pinch only primes it: with both elements attached
    and no last centre recorded, after [onTouchStart] with two touches the
    first two-finger [onTouchMove] records its centre and changes neither
    scale nor position; the baseline distance is still the one measured at
    touch-start, so the next move is scaled against the touch-start
    distance. *)
Theorem pinch_first_move_primes (props : CreateSVGViewerProps)
    (sqrt : Q -> Q) (v : Viewer) (containerEl viewerEl : SVGElement)
    (a0 b0 a1 b1 : Touch) (rest0 rest1 : list Touch) :
  containerRef v = Some containerEl ->
  viewerRef v = Some viewerEl ->
  lastCenter v = None ->
  exists v0 v1,
    onTouchStart sqrt (mkTouchEvent (a0 :: b0 :: rest0)) v = Some v0 /\
    onTouchMove props sqrt (mkTouchEvent (a1 :: b1 :: rest1)) v0 = Some v1 /\
    lastDistance v1 = Some (getPinchDistance sqrt (touchPos a0) (touchPos b0))
    /\ lastCenter v1 = Some (getPinchCenter (touchPos a1) (touchPos b1))
    /\ scale v1 = scale v /\ position v1 = position v
    /\ isMoving v1 = false.
Proof.
  intros Hc Hv Hlc.
  destruct v as [pos sc ign lock ak pb vref cref off lc ld akp hpd mov].
  cbn in Hc, Hv, Hlc. subst vref cref lc.
  unfold onTouchStart, onTouchMove, onPinchMove, isPinchGesture, refs.
  cbn. destruct mov, pb; cbn; eexists; eexists;
    (split; [reflexivity |]); cbn; repeat split.
Qed.

Lemma pinch_first_move_primes_witness :
  exists v0 v1,
    onTouchStart exact_sqrt (twoTouches 100) viewerA = Some v0 /\
    onTouchMove defaultProps exact_sqrt (twoTouches 120) v0 = Some v1 /\
    lastDistance v1
    = Some (getPinchDistance exact_sqrt (mkPosition 0 0) (mkPosition 100 0))
    /\ lastCenter v1
       = Some (getPinchCenter (mkPosition 0 0) (mkPosition 120 0))
    /\ scale v1 = scale viewerA /\ position v1 = position viewerA
    /\ isMoving v1 = false.
Proof.
  apply (pinch_first_move_primes defaultProps exact_sqrt viewerA
           content1000 frame500 (mkTouch 0 0) (mkTouch 100 0)
           (mkTouch 0 0) (mkTouch 120 0) [] []); reflexivity.
Defined.

(** ** Keeping the scale inside its interval *)

Lemma zoomScale_range (props : CreateSVGViewerProps) (s : Q) (v : Viewer) :
  ignoreScale v = false -> minScale props <= maxScale props ->
  minScale props <= zoomScale props s v <= maxScale props.
Proof.
  intros Hign Hcfg. unfold zoomScale. rewrite Hign. cbn [negb].
  repeat qcase; split; lra.
Qed.

Lemma zoom_scale_in_range (props : CreateSVGViewerProps) (x y s : Q)
    (v : Viewer) (containerEl viewerEl : SVGElement) :
  refs v = Some (containerEl, viewerEl) ->
  minScale props <= maxScale props ->
  minScale props <= zoomScale props s v <= maxScale props ->
  minScale props <= scale (zoom props x y s v) <= maxScale props.
Proof.
  intros Hrefs Hcfg Hz.
  destruct (zoomFallsBack props s v) eqn:Hfb.
  - rewrite (zoom_branches props x y s v _ _ Hrefs), Hfb.
    now apply (fitToViewer_scale_in_range props v containerEl viewerEl).
  - rewrite (zoom_scale props x y s v _ _ Hrefs Hfb); [exact Hz |].
    now right.
Qed.

(** With both elements attached, non-zero scale and content sizes and
    [minScale <= maxScale], [zoomOnCenter] and [fitToViewer()] always leave
    the scale inside [[minScale, maxScale]], whatever the scale was before
    and whether or not IgnoreScale is set; [zoom] does so whenever
    IgnoreScale is off.  Every branch is covered, the fall-back of [zoom]
    into [fitToViewer] included. *)
Theorem scale_ends_in_range (props : CreateSVGViewerProps) (v : Viewer)
    (containerEl viewerEl : SVGElement) :
  containerRef v = Some containerEl ->
  viewerRef v = Some viewerEl ->
  ~ scale v == 0 ->
  ~ width (getBoundingClientRect containerEl) == 0 ->
  ~ height (getBoundingClientRect containerEl) == 0 ->
  minScale props <= maxScale props ->
  (forall s,
     minScale props <= scale (zoomOnCenter props s v) <= maxScale props) /\
  minScale props <= scale (fitToViewer props false v) <= maxScale props /\
  (ignoreScale v = false ->
   forall x y s,
     minScale props <= scale (zoom props x y s v) <= maxScale props).
Proof.
  intros Hc Hv _ _ _ Hcfg.
  pose proof (refs_attached v containerEl viewerEl Hc Hv) as Hrefs.
  split; [| split].
  - intro s. unfold zoomOnCenter. rewrite Hrefs.
    set (s' := if (if s >? _ then _ else _) <? _ then _ else _).
    assert (Hs' : minScale props <= s' <= maxScale props)
      by (unfold s'; repeat qcase; split; lra).
    apply (zoom_scale_in_range props _ _ s' v _ _ Hrefs Hcfg).
    now rewrite zoomScale_in_range.
  - now apply (fitToViewer_scale_in_range props v containerEl viewerEl).
  - intros Hign x y s.
    apply (zoom_scale_in_range props x y s v _ _ Hrefs Hcfg).
    now apply zoomScale_range.
Qed.

Lemma scale_ends_in_range_witness :
  let v := set_scale 5 viewerL in
  (forall s,
     minScale lockedProps <= scale (zoomOnCenter lockedProps s v)
     <= maxScale lockedProps) /\
  minScale lockedProps <= scale (fitToViewer lockedProps false v)
  <= maxScale lockedProps /\
  (ignoreScale v = false ->
   forall x y s,
     minScale lockedProps <= scale (zoom lockedProps x y s v)
     <= maxScale lockedProps).
Proof.
  apply (scale_ends_in_range lockedProps (set_scale 5 viewerL)
           content1000 frame500); try reflexivity;
    intro H; vm_compute in H; discriminate H.
Defined.

(** ** [fitToViewer] *)

(** With both elements attached and non-zero scale and content sizes,
    [fitToViewer] puts the content's corner at the frame's origin whatever
    [forceScale] is.  [forceScale] does not get past the scale interceptor:
    with IgnoreScale off and the current scale inside
    [[minScale, maxScale]], the scale after [fitToViewer(true)] is still
    inside it. *)
Theorem fitToViewer_origin (props : CreateSVGViewerProps) (v : Viewer)
    (containerEl viewerEl : SVGElement) (forceScale : bool) :
  containerRef v = Some containerEl ->
  viewerRef v = Some viewerEl ->
  ~ scale v == 0 ->
  ~ width (getBoundingClientRect containerEl) == 0 ->
  ~ height (getBoundingClientRect containerEl) == 0 ->
  position (fitToViewer props forceScale v) = mkPosition 0 0 /\
  (ignoreScale v = false ->
   minScale props <= scale v <= maxScale props ->
   minScale props <= scale (fitToViewer props true v) <= maxScale props).
Proof.
  intros Hc Hv _ _ _.
  pose proof (refs_attached v containerEl viewerEl Hc Hv) as Hrefs.
  unfold fitToViewer. rewrite Hrefs. split; [reflexivity |].
  intros Hign [Hlo Hhi].
  cbn [scale position_set set_position scale_set set_scale overridable_set
       overridable_update negb].
  unfold onScaleChange. rewrite Hign. repeat qcase; split; lra.
Qed.

Lemma fitToViewer_origin_witness :
  position (fitToViewer defaultProps true viewerA) = mkPosition 0 0 /\
  (ignoreScale viewerA = false ->
   minScale defaultProps <= scale viewerA <= maxScale defaultProps ->
   minScale defaultProps <= scale (fitToViewer defaultProps true viewerA)
   <= maxScale defaultProps).
Proof.
  apply (fitToViewer_origin defaultProps viewerA content1000 frame500 true);
    try reflexivity; intro H; vm_compute in H; discriminate H.
Defined.

(** ** [center] *)

(** [center] reads the two rectangles and nothing else: with both elements
    attached, the position it writes is the same whatever the position and
    the LockToBoundaries flag were before; it leaves the scale alone, and a
    second [center()] (sizes unchanged) leaves the closure exactly as the
    first one left it. *)
Theorem center_ignores_position (v : Viewer)
    (containerEl viewerEl : SVGElement) (p : Position) (lock : bool) :
  containerRef v = Some containerEl ->
  viewerRef v = Some viewerEl ->
  position (center (set_position p (set_lockToBoundaries lock v)))
  = position (center v) /\
  scale (center v) = scale v /\
  center (center v) = center v.
Proof.
  intros Hc Hv.
  destruct v as [pos sc ign lk ak pb vref cref off lc ld akp hpd mov].
  cbn in Hc, Hv. subst vref cref.
  unfold center, refs. cbn. repeat split.
Qed.

Lemma center_ignores_position_witness :
  position
    (center (set_position (mkPosition 7 (-3))
               (set_lockToBoundaries false viewerL)))
  = position (center viewerL) /\
  scale (center viewerL) = scale viewerL /\
  center (center viewerL) = center viewerL.
Proof.
  apply (center_ignores_position viewerL content1000 frame500
           (mkPosition 7 (-3)) false); reflexivity.
Defined.

(** ** [pan], [panTo] and the lock *)

(** [pan(x, y)] is [panTo] relative to the current position, in every state
    (locked or not, attached or not): the two write the same closure. *)
Theorem pan_is_relative_panTo (v : Viewer) (x y : Q) :
  pan x y v = panTo (px (position v) + x) (py (position v) + y) v.
Proof.
  unfold pan, panTo. destruct (refs v) as [[c vw] |]; [| reflexivity].
  destruct (lockToBoundaries v); reflexivity.
Qed.

(** The clamp of [panTo] applied twice is the clamp applied once. *)
Lemma clamp_axis_idem (p lo : Q) :
  Math.min 0 (Math.max (Math.min 0 (Math.max p lo)) lo)
  == Math.min 0 (Math.max p lo).
Proof.
  unfold Math.min, Math.max.
  destruct (Q.max_spec p lo) as [[H1 E1] | [H1 E1]];
  destruct (Q.min_spec 0 (Qmax p lo)) as [[H2 E2] | [H2 E2]];
  destruct (Q.max_spec (Qmin 0 (Qmax p lo)) lo) as [[H3 E3] | [H3 E3]];
  destruct (Q.min_spec 0 (Qmax (Qmin 0 (Qmax p lo)) lo))
    as [[H4 E4] | [H4 E4]];
  lra.
Qed.

(** A position written by [panTo] is stable: with both elements attached,
    panning again to the position [panTo] produced, or re-running the lock
    effect on it, leaves the position where it is (locked or not, content
    larger than the frame or not). *)
Theorem panTo_result_is_stable (v : Viewer)
    (containerEl viewerEl : SVGElement) (x y : Q) :
  containerRef v = Some containerEl ->
  viewerRef v = Some viewerEl ->
  let v' := panTo x y v in
  pos_eq (position (panTo (px (position v')) (py (position v')) v'))
         (position v') /\
  pos_eq (position (lockEffect v')) (position v').
Proof.
  intros Hc Hv v'.
  destruct v as [pos sc ign lock ak pb vref cref off lc ld akp hpd mov].
  cbn in Hc, Hv. subst vref cref.
  unfold v', panTo, lockEffect, refs, pos_eq. cbn.
  destruct lock; cbn; repeat split; try reflexivity; apply clamp_axis_idem.
Qed.

Lemma panTo_result_is_stable_witness :
  let v' := panTo 700 (-900) viewerL in
  pos_eq (position (panTo (px (position v')) (py (position v')) v'))
         (position v') /\
  pos_eq (position (lockEffect v')) (position v').
Proof.
  apply (panTo_result_is_stable viewerL content1000 frame500 700 (-900));
    reflexivity.
Defined.

(** The lock effect (run when the LockToBoundaries store changes) re-clamps
    exactly as a [panTo] to the current position would; while the lock is
    off it does nothing. *)
Theorem lock_effect_is_panTo (v : Viewer) :
  (lockToBoundaries v = true ->
   lockEffect v = panTo (px (position v)) (py (position v)) v) /\
  (lockToBoundaries v = false -> lockEffect v = v).
Proof.
  unfold lockEffect, panTo. split; intro Hlock; rewrite Hlock;
    [| reflexivity].
  cbn [negb]. destruct (refs v) as [[c vw] |]; reflexivity.
Qed.

Lemma lock_effect_is_panTo_witness :
  lockEffect viewerL
  = panTo (px (position viewerL)) (py (position viewerL)) viewerL.
Proof.
  destruct (lock_effect_is_panTo viewerL) as [Hon _].
  apply Hon. reflexivity.
Defined.

(** ** Touch and the action key *)

Ltac split_ifs :=
  repeat match goal with
         | |- context [if ?c then _ else _] => destruct c
         end.

Section ActionKeyFrame.

Variable props : CreateSVGViewerProps.
Variable b : bool.

Let held := set_hasActionKeyPressed b.

Lemma panTo_held (x y : Q) (v : Viewer) :
  panTo x y (held v) = held (panTo x y v).
Proof.
  unfold panTo, refs, held. cbn.
  destruct (containerRef v), (viewerRef v); split_ifs; reflexivity.
Qed.

Lemma pan_held (x y : Q) (v : Viewer) : pan x y (held v) = held (pan x y v).
Proof.
  unfold pan, refs, held. cbn.
  destruct (containerRef v), (viewerRef v); split_ifs; reflexivity.
Qed.

Lemma fitToViewer_held (force : bool) (v : Viewer) :
  fitToViewer props force (held v) = held (fitToViewer props force v).
Proof.
  unfold fitToViewer, refs, held. cbn.
  destruct (containerRef v), (viewerRef v); reflexivity.
Qed.

Lemma zoom_held (x y s : Q) (v : Viewer) :
  zoom props x y s (held v) = held (zoom props x y s v).
Proof.
  unfold zoom. change (refs (held v)) with (refs v).
  destruct (refs v) as [[c vw] |]; [| reflexivity].
  cbn [held set_hasActionKeyPressed scale lockToBoundaries ignoreScale].
  destruct (_ && _); [apply fitToViewer_held | reflexivity].
Qed.

End ActionKeyFrame.

(** The touch listeners never read the action key: holding or releasing it
    changes nothing in what [onTouchStart], [onTouchMove] (one finger or a
    pinch) and [onTouchEnd] do to the rest of the closure. *)
Theorem touch_ignores_action_key (props : CreateSVGViewerProps)
    (sqrt : Q -> Q) (e : TouchEvent) (v : Viewer) (b : bool) :
  onTouchStart sqrt e (set_hasActionKeyPressed b v)
  = option_map (set_hasActionKeyPressed b) (onTouchStart sqrt e v) /\
  onTouchMove props sqrt e (set_hasActionKeyPressed b v)
  = option_map (set_hasActionKeyPressed b) (onTouchMove props sqrt e v) /\
  onTouchEnd e (set_hasActionKeyPressed b v)
  = set_hasActionKeyPressed b (onTouchEnd e v).
Proof.
  assert (Hpinch :
    onPinchMove props sqrt e (set_hasActionKeyPressed b v)
    = option_map (set_hasActionKeyPressed b) (onPinchMove props sqrt e v)).
  { unfold onPinchMove.
    change (refs (set_hasActionKeyPressed b v)) with (refs v).
    destruct (refs v) as [[c vw] |]; [| reflexivity].
    cbn [isMoving lastCenter lastDistance scale pinchBehavior
         set_hasActionKeyPressed].
    destruct (isMoving v); [reflexivity |].
    destruct (nth_error (touches e) 0); [| reflexivity].
    destruct (nth_error (touches e) 1); [| reflexivity].
    destruct (lastCenter v); [| reflexivity].
    destruct (lastDistance v) as [d |]; [destruct (truthy d) |];
      cbn [option_map];
      (destruct (scale v =? _); [reflexivity |]);
      (destruct (_ && _); [| reflexivity]);
      destruct (pinchBehavior v); cbn [option_map];
      repeat match goal with
             | |- context [zoom props ?x ?y ?s
                             (set_hasActionKeyPressed b ?w)] =>
                 rewrite (zoom_held props b x y s w)
             | |- context [zoom props ?x ?y ?s
                             (set_lastDistance ?d
                                (set_hasActionKeyPressed b ?w))] =>
                 change (set_lastDistance d (set_hasActionKeyPressed b w))
                   with (set_hasActionKeyPressed b (set_lastDistance d w));
                 rewrite (zoom_held props b x y s (set_lastDistance d w))
             | |- context [pan ?x ?y (set_hasActionKeyPressed b ?w)] =>
                 rewrite (pan_held b x y w)
             end; reflexivity. }
  split; [| split].
  - unfold onTouchStart, getTouchPosition.
    change (refs (set_hasActionKeyPressed b v)) with (refs v).
    destruct (refs v) as [[c vw] |]; [| reflexivity].
    cbn [isMoving position pinchBehavior set_hasActionKeyPressed].
    destruct (isPinchGesture e).
    + destruct (nth_error (touches e) 0); [| reflexivity].
      destruct (nth_error (touches e) 1); [| reflexivity].
      destruct (isMoving v), (pinchBehavior v); reflexivity.
    + destruct (nth_error (touches e) 0); reflexivity.
  - unfold onTouchMove, getTouchPosition.
    change (refs (set_hasActionKeyPressed b v)) with (refs v).
    destruct (refs v) as [[c vw] |]; [| reflexivity].
    destruct (isPinchGesture e); [exact Hpinch |].
    cbn [isMoving hasPointerDown offset set_hasActionKeyPressed].
    destruct (nth_error (touches e) 0);
      destruct (isMoving v), (hasPointerDown v); cbn [negb option_map];
      try reflexivity;
      match goal with
      | |- Some (panTo ?x ?y ?w) = _ =>
          change w with (set_hasActionKeyPressed b
                           (set_hasPointerDown false (set_isMoving true v)))
          || change w with (set_hasActionKeyPressed b v)
      end; rewrite panTo_held; reflexivity.
  - unfold onTouchEnd.
    change (refs (set_hasActionKeyPressed b v)) with (refs v).
    destruct (refs v) as [[c vw] |]; [| reflexivity].
    destruct (isPinchGesture e); reflexivity.
Qed.

(** ** Pinch moves that are dropped *)

(** A primed pinch move changes nothing at all in three cases: while a
    one-finger drag is in progress; when the touches are as far apart as the
    baseline ([d1 = d0]); and when the content rectangle scaled by
    [newScale / oldScale] would not be strictly larger than the frame on
    both axes.  The last test is made whether or not LockToBoundaries is
    set, so a pinch never shrinks the content to the frame's size or
    below. *)
Theorem pinch_move_dropped (props : CreateSVGViewerProps) (sqrt : Q -> Q)
    (v : Viewer) (containerEl viewerEl : SVGElement) (event : TouchEvent)
    (touch1 touch2 : Touch) (rest : list Touch) (lastCenter0 : Position)
    (d0 : Q) :
  let frame := getBoundingClientRect viewerEl in
  let content := getBoundingClientRect containerEl in
  let d1 := getPinchDistance sqrt (touchPos touch1) (touchPos touch2) in
  let newScale := scale v * (d1 / d0) in
  containerRef v = Some containerEl ->
  viewerRef v = Some viewerEl ->
  touches event = touch1 :: touch2 :: rest ->
  lastCenter v = Some lastCenter0 ->
  lastDistance v = Some d0 ->
  ~ d0 == 0 ->
  isMoving v = true \/ d1 == d0 \/
  width content * (newScale / scale v) <= width frame \/
  height content * (newScale / scale v) <= height frame ->
  onPinchMove props sqrt event v = Some v /\
  onTouchMove props sqrt event v = Some v.
Proof.
  intros frame content d1 newScale Hc Hv Htouch Hlc Hld Hd0 Hcase.
  pose proof (refs_attached v containerEl viewerEl Hc Hv) as Hrefs.
  assert (Htruthy : truthy d0 = true).
  { unfold truthy. apply negb_true_iff. now apply Qeqb_false. }
  assert (Hp : onPinchMove props sqrt event v = Some v).
  { unfold onPinchMove. rewrite Hrefs.
    destruct (isMoving v) eqn:Hmov; [reflexivity |].
    rewrite Htouch. cbn [nth_error]. rewrite Hlc. fold d1.
    rewrite Hld, Htruthy. fold newScale.
    destruct (scale v =? newScale) eqn:Heq; [reflexivity |].
    apply Qeqb_false in Heq. fold content frame.
    destruct Hcase as [Hm | [Hd | [Hw | Hh]]].
    - discriminate Hm.
    - exfalso. apply Heq. unfold newScale. rewrite Hd. field. exact Hd0.
    - apply Qgtb_false in Hw. rewrite Hw, andb_false_r. reflexivity.
    - apply Qgtb_false in Hh. rewrite Hh, andb_false_r. reflexivity. }
  split; [exact Hp |].
  unfold onTouchMove. rewrite Hrefs.
  unfold isPinchGesture. rewrite Htouch. exact Hp.
Qed.

Lemma pinch_move_dropped_witness :
  let v := attach frame500 (elementOf 0 0 600 600) (createViewer defaultProps)
  in
  let primed :=
    set_lastCenter (Some (mkPosition 50 0)) (set_lastDistance (Some 100) v) in
  onPinchMove defaultProps exact_sqrt (twoTouches 80) primed = Some primed /\
  onTouchMove defaultProps exact_sqrt (twoTouches 80) primed = Some primed.
Proof.
  assert (Hd0 : ~ 100 == 0) by (intro H; discriminate H).
  apply (pinch_move_dropped defaultProps exact_sqrt
           (set_lastCenter (Some (mkPosition 50 0))
              (set_lastDistance (Some 100)
                 (attach frame500 (elementOf 0 0 600 600)
                    (createViewer defaultProps))))
           (elementOf 0 0 600 600) frame500 (twoTouches 80)
           (mkTouch 0 0) (mkTouch 80 0) [] (mkPosition 50 0) 100
           eq_refl eq_refl eq_refl eq_refl eq_refl Hd0).
  right. right. left. qdecide.
Defined.

(** ** The two copies of [onPinchMove] *)

(** The copy of the engine in [src/unnamed/part_000] and
    [src/lib/internal/SVGViewer.ts] handle a [zoomOnly] pinch move alike
    whenever the current scale is [1]: the copy's range test on
    [oldScale * newScale] is then the test on [newScale]. *)
Theorem pinch_copies_agree_at_scale_one (props : CreateSVGViewerProps)
    (sqrt : Q -> Q) (event : TouchEvent) (v : Viewer) :
  pinchBehavior v = zoomOnly ->
  scale v == 1 ->
  onPinchMove_part_000 props sqrt event v = onPinchMove props sqrt event v.
Proof.
  intros Hpb Hone. unfold onPinchMove_part_000, onPinchMove.
  destruct (refs v) as [[c vw] |]; [| reflexivity].
  destruct (isMoving v); [reflexivity |].
  destruct (nth_error (touches event) 0); [| reflexivity].
  destruct (nth_error (touches event) 1); [| reflexivity].
  destruct (lastCenter v); [| reflexivity].
  rewrite Hpb.
  assert (Hgate : forall n : Q,
            (scale v * n <=? maxScale props) = (n <=? maxScale props) /\
            (scale v * n >=? minScale props) = (n >=? minScale props)).
  { intro n. assert (E : scale v * n == n) by (rewrite Hone; ring).
    unfold Qgeb. now rewrite E. }
  destruct (lastDistance v) as [d |]; [destruct (truthy d) |];
    match goal with
    | |- context [scale v * ?n <=? _] => destruct (Hgate n) as [E1 E2]
    end; rewrite E1, E2; reflexivity.
Qed.

Lemma pinch_copies_agree_at_scale_one_witness :
  onPinchMove_part_000 defaultProps exact_sqrt (twoTouches 120) pinchViewer
  = onPinchMove defaultProps exact_sqrt (twoTouches 120) pinchViewer.
Proof.
  apply (pinch_copies_agree_at_scale_one defaultProps exact_sqrt
           (twoTouches 120) pinchViewer); reflexivity.
Defined.

(** ** Dragging under the lock *)

(** Under LockToBoundaries a drag never uncovers the frame: with both
    elements attached and a content rectangle at least as large as the frame
    on both axes, the position after a mouse drag step (action key
    satisfied) and after a one-finger touch drag step keeps the content over
    the frame, wherever the pointer goes. *)
Theorem locked_drag_covers (props : CreateSVGViewerProps) (sqrt : Q -> Q)
    (v : Viewer) (containerEl viewerEl : SVGElement)
    (e0 e1 : MouseEvent) (t0 t1 : Touch) :
  let frame := getBoundingClientRect viewerEl in
  let content := getBoundingClientRect containerEl in
  containerRef v = Some containerEl ->
  viewerRef v = Some viewerEl ->
  lockToBoundaries v = true ->
  fills frame content ->
  (hasActionKeyPressed v = true ->
   covers frame content (position (onMouseMove e1 (onMouseDown e0 v)))) /\
  (exists v0 v1,
     onTouchStart sqrt (mkTouchEvent [t0]) v = Some v0 /\
     onTouchMove props sqrt (mkTouchEvent [t1]) v0 = Some v1 /\
     covers frame content (position v1)).
Proof.
  intros frame content Hc Hv Hlock [Hw Hh].
  destruct v as [pos sc ign lock ak pb vref cref off lc ld akp hpd mov].
  cbn in Hc, Hv, Hlock. subst vref cref lock. split.
  - intro Hkey. cbn in Hkey. subst akp.
    unfold onMouseDown, onMouseMove, panTo, refs, covers. cbn.
    destruct mov; cbn; split; apply clamp_axis; assumption.
  - unfold onTouchStart, onTouchMove, getTouchPosition, isPinchGesture,
      panTo, refs, covers.
    destruct mov; cbn; eexists; eexists; (split; [reflexivity |]); cbn;
      (split; [reflexivity |]);
      unfold position_set, overridable_set, overridable_update,
        onPositionChange; cbn; split; apply clamp_axis; assumption.
Qed.

Lemma locked_drag_covers_witness :
  covers (getBoundingClientRect frame500) (getBoundingClientRect content1000)
    (position
       (onMouseMove (mkMouseEvent 900 (-700))
          (onMouseDown (mkMouseEvent 10 10) viewerL))).
Proof.
  assert (Hfill : fills (getBoundingClientRect frame500)
                    (getBoundingClientRect content1000))
    by (split; cbn; lra).
  destruct (locked_drag_covers lockedProps exact_sqrt viewerL
              content1000 frame500 (mkMouseEvent 10 10)
              (mkMouseEvent 900 (-700)) (mkTouch 0 0) (mkTouch 1 1)
              eq_refl eq_refl eq_refl Hfill) as [Hmouse _].
  apply Hmouse. reflexivity.
Defined.
